(** * Invoice dashboard: server actions and edit page

    A shallow embedding of the invoice server actions ([createInvoice],
    [updateInvoice], [deleteInvoice]) and of the edit page component,
    together with the parts of the JavaScript runtime, of the schema
    validation library and of the SQL statements that they rely on.

    - JavaScript numbers are IEEE 754 binary64 values, modelled with the
      standard library's [spec_float] at precision 53 and [emax] 1024.
    - JavaScript strings are sequences of code units; the model keeps the
      code units below 256, which is what [string] offers.
    - An [async] function is a state transformer over a [World] (the rows
      of the [invoices] table and the trace of the effects performed) that
      either returns a value or throws; [redirect] and [notFound] throw,
      as they do in the framework. *)

From Stdlib Require Import ZArith Ascii String List Lia DecimalString.
From Stdlib Require Import Floats.SpecFloat.
From stdpp Require Import gmap strings list.

Open Scope Z_scope.

(** ** JavaScript numbers *)

Module Js.

Definition number := spec_float.

Definition prec : Z := 53.
Definition emax : Z := 1024.

Definition NaN : number := S754_nan.
Definition pos_zero : number := S754_zero false.
Definition Infinity : number := S754_infinity false.

(** The number with the integer value [z], rounded to nearest even. *)
Definition of_Z (z : Z) : number := binary_normalize prec emax z 0 false.

Definition mul (x y : number) : number := SFmul prec emax x y.
Definition div (x y : number) : number := SFdiv prec emax x y.

(** [x <= y] and [x > y] of the language: false when an operand is NaN. *)
Definition le (x y : number) : bool := SFleb x y.
Definition gt (x y : number) : bool := SFltb y x.

Definition isNaN (x : number) : bool :=
  match x with S754_nan => true | _ => false end.

(** [sign * m * 10^e] rounded to the nearest number; the quotient by a power
    of ten is rounded once, from the exact quotient and remainder. *)
Definition of_decimal (sign : bool) (m : Z) (e : Z) : number :=
  match m with
  | Z0 => S754_zero sign
  | Zneg _ => NaN
  | Zpos p =>
      if 0 <=? e then binary_round prec emax sign (p * Z.to_pos (10 ^ e))%positive 0
      else
        let '(q, e', l) := SFdiv_core_binary prec emax (Zpos p) 0 (10 ^ (- e)) 0 in
        binary_round_aux prec emax sign q e' l
  end.

(** *** [Number(string)]: the StringNumericLiteral grammar *)

Definition code (c : ascii) : Z := Z.of_N (N_of_ascii c).

(** White space and line terminators among the code units below 256. *)
Definition is_white_space (c : ascii) : bool :=
  let n := code c in
  ((9 <=? n) && (n <=? 13)) || (n =? 32) || (n =? 160).

Fixpoint trim_start (l : list ascii) : list ascii :=
  match l with
  | c :: l' => if is_white_space c then trim_start l' else l
  | [] => []
  end.

Definition trim (l : list ascii) : list ascii :=
  rev (trim_start (rev (trim_start l))).

(** Value of a digit in the given radix, [None] for any other code unit. *)
Definition digit_value (radix : Z) (c : ascii) : option Z :=
  let n := code c in
  let v :=
    if (48 <=? n) && (n <=? 57) then n - 48
    else if (97 <=? n) && (n <=? 122) then n - 87
    else if (65 <=? n) && (n <=? 90) then n - 55
    else radix in
  if v <? radix then Some v else None.

(** Reads the longest prefix of digits: its value continuing [acc], how many
    digits were read, and what follows. *)
Fixpoint read_digits (radix : Z) (l : list ascii) (acc : Z) (n : Z)
  : Z * Z * list ascii :=
  match l with
  | c :: l' =>
      match digit_value radix c with
      | Some v => read_digits radix l' (acc * radix + v) (n + 1)
      | None => (acc, n, l)
      end
  | [] => (acc, n, [])
  end.

Definition is_char (c : ascii) (s : string) : bool :=
  bool_decide (String c EmptyString = s).

(** ExponentPart, when present: [e] or [E], an optional sign, digits. *)
Definition read_exponent (l : list ascii) : option (Z * list ascii) :=
  match l with
  | c :: l' =>
      if is_char c "e" || is_char c "E" then
        let '(neg, l'') :=
          match l' with
          | s :: r => if is_char s "-" then (true, r)
                      else if is_char s "+" then (false, r) else (false, l')
          | [] => (false, l')
          end in
        let '(v, n, rest) := read_digits 10 l'' 0 0 in
        if n =? 0 then None else Some (if neg then - v else v, rest)
      else Some (0, l)
  | [] => Some (0, [])
  end.

(** StrUnsignedDecimalLiteral, which has to reach the end of the input. *)
Definition unsigned_decimal (sign : bool) (l : list ascii) : number :=
  if bool_decide (l = list_ascii_of_string "Infinity") then S754_infinity sign
  else
    let '(i, ni, r1) := read_digits 10 l 0 0 in
    let '(m, nf, r2) :=
      match r1 with
      | c :: r => if is_char c "." then read_digits 10 r i 0 else (i, 0, r1)
      | [] => (i, 0, r1)
      end in
    if ni + nf =? 0 then NaN
    else
      match read_exponent r2 with
      | Some (e, []) => of_decimal sign m (e - nf)
      | _ => NaN
      end.

(** NonDecimalIntegerLiteral: the digits after [0x], [0o] or [0b]. *)
Definition non_decimal (radix : Z) (l : list ascii) : number :=
  match read_digits radix l 0 0 with
  | (v, n, []) => if n =? 0 then NaN else of_decimal false v 0
  | _ => NaN
  end.

Definition StringToNumber (s : string) : number :=
  match trim (list_ascii_of_string s) with
  | [] => pos_zero
  | c :: l =>
      if is_char c "-" then unsigned_decimal true l
      else if is_char c "+" then unsigned_decimal false l
      else
        match l with
        | x :: l' =>
            if is_char c "0" && (is_char x "x" || is_char x "X") then non_decimal 16 l'
            else if is_char c "0" && (is_char x "o" || is_char x "O") then non_decimal 8 l'
            else if is_char c "0" && (is_char x "b" || is_char x "B") then non_decimal 2 l'
            else unsigned_decimal false (c :: l)
        | [] => unsigned_decimal false (c :: l)
        end
  end.

End Js.

(** ** Form data *)

(** A form entry is a string or an uploaded file. *)
Inductive FormDataEntryValue :=
| FormString (s : string)
| FormFile (name : string).

(** Entries in submission order; a name may occur several times. *)
Definition FormData := list (string * FormDataEntryValue).

(** [formData.get(name)]: the first entry of that name, [None] for [null]. *)
Fixpoint FormData_get (formData : FormData) (name : string)
  : option FormDataEntryValue :=
  match formData with
  | (k, v) :: rest => if bool_decide (k = name) then Some v else FormData_get rest name
  | [] => None
  end.

(** The values that reach the schema: [string | File | null]. *)
Definition RawValue := option FormDataEntryValue.

(** [Number(v)]: [null] is 0, a string is read as a numeric literal, an
    object goes through its string form. *)
Definition Number (v : RawValue) : Js.number :=
  match v with
  | None => Js.pos_zero
  | Some (FormString s) => Js.StringToNumber s
  | Some (FormFile _) => Js.StringToNumber "[object File]"
  end.

(** ** Schema validation *)

Module Zod.

Inductive ZodIssueCode := invalid_type | invalid_enum_value | too_small.

Record ZodIssue := {
  issue_code : ZodIssueCode;
  issue_path : list string;
  issue_message : string
}.

(** Outcome of parsing one value: the typed value, or the issues found. A
    value that fails a refinement check counts as invalid, as it does for
    the caller of [safeParse]. *)
Inductive ParseReturn (T : Type) :=
| OK (value : T)
| INVALID (issues : list ZodIssue).
Arguments OK {T} value.
Arguments INVALID {T} issues.

Definition ZodType (T : Type) := RawValue -> ParseReturn T.

Definition issues_of {T} (r : ParseReturn T) : list ZodIssue :=
  match r with OK _ => [] | INVALID issues => issues end.

(** Name of the runtime type of a raw value, as issues report it. *)
Definition parsedType (v : RawValue) : string :=
  match v with
  | None => "null"
  | Some (FormString _) => "string"
  | Some (FormFile _) => "object"
  end.

(** Message of an [invalid_type] issue: the schema's [invalid_type_error]
    when it has one, the default message otherwise. *)
Definition invalid_type_message (invalid_type_error : option string)
    (expected received : string) : string :=
  match invalid_type_error with
  | Some m => m
  | None => "Expected " +:+ expected +:+ ", received " +:+ received
  end.

(** [z.string(params)] *)
Definition string_ (invalid_type_error : option string) : ZodType string :=
  fun v =>
    match v with
    | Some (FormString s) => OK s
    | _ => INVALID [ {| issue_code := invalid_type; issue_path := [];
                        issue_message :=
                          invalid_type_message invalid_type_error "string" (parsedType v) |} ]
    end.

(** A [.gt(value, { message })] check of a number schema. *)
Record GtCheck := { gt_value : Js.number; gt_message : string }.

(** [z.coerce.number()] followed by the given [.gt] checks: the input goes
    through [Number], NaN is a type error, then each check is applied. *)
Definition coerce_number (checks : list GtCheck) : ZodType Js.number :=
  fun v =>
    let data := Number v in
    if Js.isNaN data then
      INVALID [ {| issue_code := invalid_type; issue_path := [];
                   issue_message := invalid_type_message None "number" "nan" |} ]
    else
      match
        omap (fun c =>
                if Js.le data (gt_value c)
                then Some {| issue_code := too_small; issue_path := [];
                             issue_message := gt_message c |}
                else None) checks
      with
      | [] => OK data
      | issues => INVALID issues
      end.

(** [util.joinValues]: the quoted options separated by [" | "]. *)
Fixpoint joinValues (values : list string) : string :=
  match values with
  | [] => EmptyString
  | [v] => "'" +:+ v +:+ "'"
  | v :: rest => "'" +:+ v +:+ "' | " +:+ joinValues rest
  end.

(** [z.enum(values, params)] *)
Definition enum (values : list string) (invalid_type_error : option string)
  : ZodType string :=
  fun v =>
    match v with
    | Some (FormString s) =>
        if bool_decide (s ∈ values) then OK s
        else INVALID [ {| issue_code := invalid_enum_value; issue_path := [];
                          issue_message :=
                            "Invalid enum value. Expected " +:+ joinValues values
                            +:+ ", received '" +:+ s +:+ "'" |} ]
    | _ => INVALID [ {| issue_code := invalid_type; issue_path := [];
                        issue_message :=
                          invalid_type_message invalid_type_error
                            (joinValues values) (parsedType v) |} ]
    end.

(** The shape of the invoice form schema, and the shape left by
    [.omit({ id: true, date: true })]. *)
Record FormShape := {
  shape_id : ZodType string;
  shape_customerId : ZodType string;
  shape_amount : ZodType Js.number;
  shape_status : ZodType string;
  shape_date : ZodType string
}.

Record InvoiceShape := {
  field_customerId : ZodType string;
  field_amount : ZodType Js.number;
  field_status : ZodType string
}.

Definition omit_id_date (schema : FormShape) : InvoiceShape :=
  {| field_customerId := shape_customerId schema;
     field_amount := shape_amount schema;
     field_status := shape_status schema |}.

(** The object literal handed to the schema, and the typed data it yields. *)
Record RawFields := {
  raw_customerId : RawValue;
  raw_amount : RawValue;
  raw_status : RawValue
}.

Record InvoiceFields := {
  customerId : string;
  amount : Js.number;
  status : string
}.

Definition at_key (key : string) (i : ZodIssue) : ZodIssue :=
  {| issue_code := issue_code i;
     issue_path := key :: issue_path i;
     issue_message := issue_message i |}.

Inductive SafeParseReturn :=
| SafeParseSuccess (data : InvoiceFields)
| SafeParseError (error : list ZodIssue).

(** [schema.safeParse(raw)]: every key of the shape is parsed, in the order
    of the shape, and the issues of all of them are collected. *)
Definition safeParse (schema : InvoiceShape) (raw : RawFields) : SafeParseReturn :=
  let c := field_customerId schema (raw_customerId raw) in
  let a := field_amount schema (raw_amount raw) in
  let s := field_status schema (raw_status raw) in
  match c, a, s with
  | OK c', OK a', OK s' =>
      SafeParseSuccess {| customerId := c'; amount := a'; status := s' |}
  | _, _, _ =>
      SafeParseError
        ((at_key "customerId" <$> issues_of c) ++
         (at_key "amount" <$> issues_of a) ++
         (at_key "status" <$> issues_of s))
  end.

(** [error.flatten().fieldErrors]: the messages of the issues, grouped by
    the first key of their path, in the order of the issues. *)
Definition fieldErrors (error : list ZodIssue) : gmap string (list string) :=
  foldl (fun acc i =>
           match issue_path i with
           | key :: _ => <[key := default [] (acc !! key) ++ [issue_message i]]> acc
           | [] => acc
           end) ∅ error.

End Zod.

(** ** Dates *)

Module Date.

Definition msPerDay : Z := 86400000.

Definition Day (t : Z) : Z := t / msPerDay.

Definition DaysInYear (y : Z) : Z :=
  if negb (y mod 4 =? 0) then 365
  else if negb (y mod 100 =? 0) then 366
  else if negb (y mod 400 =? 0) then 365
  else 366.

Definition DayFromYear (y : Z) : Z :=
  365 * (y - 1970) + (y - 1969) / 4 - (y - 1901) / 100 + (y - 1601) / 400.

(** The largest year that starts on or before [t]: an estimate from the
    mean length of a year, then a correction by one year at most. *)
Definition YearFromTime (t : Z) : Z :=
  let d := Day t in
  let y := 1970 + d * 400 / 146097 in
  if DayFromYear (y + 1) <=? d then y + 1
  else if d <? DayFromYear y then y - 1
  else y.

Definition DayWithinYear (t : Z) : Z := Day t - DayFromYear (YearFromTime t).

Definition InLeapYear (t : Z) : Z :=
  if DaysInYear (YearFromTime t) =? 366 then 1 else 0.

Definition MonthFromTime (t : Z) : Z :=
  let d := DayWithinYear t in
  let leap := InLeapYear t in
  if d <? 31 then 0
  else if d <? 59 + leap then 1
  else if d <? 90 + leap then 2
  else if d <? 120 + leap then 3
  else if d <? 151 + leap then 4
  else if d <? 181 + leap then 5
  else if d <? 212 + leap then 6
  else if d <? 243 + leap then 7
  else if d <? 273 + leap then 8
  else if d <? 304 + leap then 9
  else if d <? 334 + leap then 10
  else 11.

Definition DateFromTime (t : Z) : Z :=
  let d := DayWithinYear t in
  let leap := InLeapYear t in
  match MonthFromTime t with
  | 0 => d + 1
  | 1 => d - 30
  | 2 => d - 58 - leap
  | 3 => d - 89 - leap
  | 4 => d - 119 - leap
  | 5 => d - 150 - leap
  | 6 => d - 180 - leap
  | 7 => d - 211 - leap
  | 8 => d - 242 - leap
  | 9 => d - 272 - leap
  | 10 => d - 303 - leap
  | _ => d - 333 - leap
  end.

Definition HourFromTime (t : Z) : Z := (t / 3600000) mod 24.
Definition MinFromTime (t : Z) : Z := (t / 60000) mod 60.
Definition SecFromTime (t : Z) : Z := (t / 1000) mod 60.
Definition msFromTime (t : Z) : Z := t mod 1000.

(** Decimal digits of a natural number. *)
Definition decimal (n : Z) : string :=
  DecimalString.NilZero.string_of_uint (N.to_uint (Z.to_N n)).

Fixpoint repeat_char (n : nat) (c : ascii) : string :=
  match n with
  | O => EmptyString
  | S n' => String c (repeat_char n' c)
  end.

(** [s.padStart(n, "0")] *)
Definition padStart (n : nat) (s : string) : string :=
  repeat_char (n - String.length s) "0" +:+ s.

(** Four digits for the years 0 to 9999, a sign and six digits otherwise. *)
Definition year_string (y : Z) : string :=
  if (0 <=? y) && (y <=? 9999) then padStart 4 (decimal y)
  else (if y <? 0 then "-" else "+") +:+ padStart 6 (decimal (Z.abs y)).

Definition date_string (t : Z) : string :=
  year_string (YearFromTime t) +:+ "-" +:+
  padStart 2 (decimal (MonthFromTime t + 1)) +:+ "-" +:+
  padStart 2 (decimal (DateFromTime t)).

Definition time_string (t : Z) : string :=
  padStart 2 (decimal (HourFromTime t)) +:+ ":" +:+
  padStart 2 (decimal (MinFromTime t)) +:+ ":" +:+
  padStart 2 (decimal (SecFromTime t)) +:+ "." +:+
  padStart 3 (decimal (msFromTime t)).

(** [date.toISOString()] of the date with time value [t], in UTC. *)
Definition toISOString (t : Z) : string :=
  date_string t +:+ "T" +:+ time_string t +:+ "Z".

End Date.

(** [s.split(sep)] for a separator of one code unit: never empty. *)
Fixpoint split (sep : ascii) (s : string) : list string :=
  match s with
  | EmptyString => [EmptyString]
  | String c s' =>
      if bool_decide (c = sep) then EmptyString :: split sep s'
      else
        match split sep s' with
        | x :: rest => String c x :: rest
        | [] => [String c EmptyString]
        end
  end.

(** ** The database *)

Module Sql.

Record Invoice := {
  id : string;
  customer_id : string;
  amount : Js.number;
  status : string;
  date : string
}.

(** The three statements that the actions send. *)
Inductive Statement :=
| INSERT_INTO_invoices (customer_id : string) (amount : Js.number)
    (status : string) (date : string)
| UPDATE_invoices (customer_id : string) (amount : Js.number)
    (status : string) (where_id : string)
| DELETE_FROM_invoices (where_id : string).

(** What a statement that completes does to the table; [new_id] is the
    identifier that the database generates for an inserted row. *)
Definition execute (new_id : string) (q : Statement) (rows : list Invoice)
  : list Invoice :=
  match q with
  | INSERT_INTO_invoices c a s d =>
      rows ++ [ {| id := new_id; customer_id := c; amount := a;
                   status := s; date := d |} ]
  | UPDATE_invoices c a s i =>
      (fun r => if bool_decide (id r = i)
                then {| id := id r; customer_id := c; amount := a;
                        status := s; date := date r |}
                else r) <$> rows
  | DELETE_FROM_invoices i =>
      filter (fun r => id r <> i) rows
  end.

End Sql.

(** ** Asynchronous functions and their effects *)

Inductive JsError :=
| ZodError (issues : list Zod.ZodIssue)
| Error (message : string)
| NEXT_REDIRECT (url : string)
| NEXT_NOT_FOUND.

Inductive Completion (A : Type) :=
| Return (value : A)
| Throw (error : JsError).
Arguments Return {A} value.
Arguments Throw {A} error.

Inductive Effect :=
| SqlStatement (q : Sql.Statement)
| RevalidatePath (path : string).

(** The state that the actions act on: the rows of the table and the
    effects performed so far, oldest first. *)
Record World := {
  invoices : list Sql.Invoice;
  effects : list Effect
}.

(** What is not decided by the code: the clock, whether the database
    rejects a statement, the identifiers it generates, and which of two
    concurrent rejections comes first. *)
Record Env := {
  now : Z;
  sql_rejects : Sql.Statement -> list Sql.Invoice -> option JsError;
  generated_id : list Sql.Invoice -> string;
  left_rejects_first : bool
}.

Definition Async (A : Type) : Type := Env -> World -> World * Completion A.

#[global] Instance async_ret : MRet Async :=
  fun A v _ w => (w, Return v).

#[global] Instance async_bind : MBind Async :=
  fun A B f m env w =>
    match m env w with
    | (w', Return v) => f v env w'
    | (w', Throw e) => (w', Throw e)
    end.

Definition throw {A} (e : JsError) : Async A :=
  fun _ w => (w, Throw e).

(** [try { m } catch (error) { handler }]: any error thrown by [m] is caught. *)
Definition try_catch {A} (m : Async A) (handler : JsError -> Async A) : Async A :=
  fun env w =>
    match m env w with
    | (w', Return v) => (w', Return v)
    | (w', Throw e) => handler e env w'
    end.

Definition perform (e : Effect) (w : World) : World :=
  {| invoices := invoices w; effects := effects w ++ [e] |}.

(** [await sql`...`]: the statement is sent; it either rejects and leaves
    the table as it is, or completes. *)
Definition sql (q : Sql.Statement) : Async unit :=
  fun env w =>
    match sql_rejects env q (invoices w) with
    | Some e => (perform (SqlStatement q) w, Throw e)
    | None =>
        (perform (SqlStatement q)
           {| invoices := Sql.execute (generated_id env (invoices w)) q (invoices w);
              effects := effects w |},
         Return tt)
    end.

Definition revalidatePath (path : string) : Async unit :=
  fun _ w => (perform (RevalidatePath path) w, Return tt).

(** [redirect] and [notFound] leave by throwing. *)
Definition redirect {A} (url : string) : Async A := throw (NEXT_REDIRECT url).
Definition notFound {A} : Async A := throw NEXT_NOT_FOUND.

(** [new Date().toISOString()] *)
Definition new_Date_toISOString : Async string :=
  fun env w => (w, Return (Date.toISOString (now env))).

(** [await Promise.all([p, q])]: both are started; the result is the pair
    of their values, or the rejection that comes first. *)
Definition Promise_all {A B} (p : Async A) (q : Async B) : Async (A * B) :=
  fun env w =>
    let '(w1, r1) := p env w in
    let '(w2, r2) := q env w1 in
    (w2,
     match r1, r2 with
     | Return a, Return b => Return (a, b)
     | Throw e, Return _ => Throw e
     | Return _, Throw e => Throw e
     | Throw e1, Throw e2 => Throw (if left_rejects_first env then e1 else e2)
     end).

(** ** The actions without validation messages ([src/app/lib/actions.ts]) *)

Module ParseActions.

Definition FormSchema : Zod.FormShape :=
  {| Zod.shape_id := Zod.string_ None;
     Zod.shape_customerId := Zod.string_ None;
     Zod.shape_amount := Zod.coerce_number [];
     Zod.shape_status := Zod.enum ["pending"; "paid"] None;
     Zod.shape_date := Zod.string_ None |}.

(** [schema.parse(raw)]: the data, or a thrown [ZodError]. *)
Definition parse (schema : Zod.InvoiceShape) (raw : Zod.RawFields)
  : Async Zod.InvoiceFields :=
  match Zod.safeParse schema raw with
  | Zod.SafeParseSuccess data => mret data
  | Zod.SafeParseError error => throw (ZodError error)
  end.

Definition CreateInvoice : Zod.InvoiceShape := Zod.omit_id_date FormSchema.

Definition createInvoice (formData : FormData) : Async unit :=
  data ← parse CreateInvoice
    {| Zod.raw_customerId := FormData_get formData "customerId";
       Zod.raw_amount := FormData_get formData "amount";
       Zod.raw_status := FormData_get formData "status" |};
  let amountInCents := Js.mul (Zod.amount data) (Js.of_Z 100) in
  iso ← new_Date_toISOString;
  let date := hd EmptyString (split "T" iso) in
  _ ← sql (Sql.INSERT_INTO_invoices (Zod.customerId data) amountInCents
             (Zod.status data) date);
  _ ← revalidatePath "/dashboard/invoices";
  redirect "/dashboard/invoices".

Definition UpdateInvoice : Zod.InvoiceShape := Zod.omit_id_date FormSchema.

Definition updateInvoice (id : string) (formData : FormData) : Async unit :=
  data ← parse UpdateInvoice
    {| Zod.raw_customerId := FormData_get formData "customerId";
       Zod.raw_amount := FormData_get formData "amount";
       Zod.raw_status := FormData_get formData "status" |};
  let amountInCents := Js.mul (Zod.amount data) (Js.of_Z 100) in
  _ ← sql (Sql.UPDATE_invoices (Zod.customerId data) amountInCents
             (Zod.status data) id);
  _ ← revalidatePath "/dashboard/invoices";
  redirect "/dashboard/invoices".

Definition deleteInvoice (id : string) : Async unit :=
  _ ← sql (Sql.DELETE_FROM_invoices id);
  revalidatePath "/dashboard/invoices".

End ParseActions.

(** ** The actions with validation messages ([safeParse], [State]) *)

Module Actions.

Definition FormSchema : Zod.FormShape :=
  {| Zod.shape_id := Zod.string_ None;
     Zod.shape_customerId := Zod.string_ (Some "Please select a customer.");
     Zod.shape_amount :=
       Zod.coerce_number
         [ {| Zod.gt_value := Js.of_Z 0;
              Zod.gt_message := "Please enter an amount greater than $0." |} ];
     Zod.shape_status :=
       Zod.enum ["pending"; "paid"] (Some "Please select an invoice status.");
     Zod.shape_date := Zod.string_ None |}.

Definition CreateInvoice : Zod.InvoiceShape := Zod.omit_id_date FormSchema.

(** [errors] and [message] are optional: [None] when the object has no
    such property. *)
Record State := {
  errors : option (gmap string (list string));
  message : option string
}.

Definition createInvoice (prevState : State) (formData : FormData) : Async State :=
  let validatedFields :=
    Zod.safeParse CreateInvoice
      {| Zod.raw_customerId := FormData_get formData "customerId";
         Zod.raw_amount := FormData_get formData "amount";
         Zod.raw_status := FormData_get formData "status" |} in
  match validatedFields with
  | Zod.SafeParseError error =>
      mret {| errors := Some (Zod.fieldErrors error);
              message := Some "Missing Fields. Failed to Create Invoice." |}
  | Zod.SafeParseSuccess data =>
      let amountInCents := Js.mul (Zod.amount data) (Js.of_Z 100) in
      iso ← new_Date_toISOString;
      let date := hd EmptyString (split "T" iso) in
      caught ← try_catch
        (_ ← sql (Sql.INSERT_INTO_invoices (Zod.customerId data) amountInCents
                    (Zod.status data) date);
         mret None)
        (fun error =>
           mret (Some {| errors := None;
                         message := Some "Database Error: Failed to Create Invoice." |}));
      match caught with
      | Some result => mret result
      | None =>
          _ ← revalidatePath "/dashboard/invoices";
          redirect "/dashboard/invoices"
      end
  end.

Definition UpdateInvoice : Zod.InvoiceShape := Zod.omit_id_date FormSchema.

Definition updateInvoice (id : string) (prevState : State) (formData : FormData)
  : Async State :=
  let validatedFields :=
    Zod.safeParse UpdateInvoice
      {| Zod.raw_customerId := FormData_get formData "customerId";
         Zod.raw_amount := FormData_get formData "amount";
         Zod.raw_status := FormData_get formData "status" |} in
  match validatedFields with
  | Zod.SafeParseError error =>
      mret {| errors := Some (Zod.fieldErrors error);
              message := Some "Missing Fields. Failed to Update Invoice." |}
  | Zod.SafeParseSuccess data =>
      let amountInCents := Js.mul (Zod.amount data) (Js.of_Z 100) in
      caught ← try_catch
        (_ ← sql (Sql.UPDATE_invoices (Zod.customerId data) amountInCents
                    (Zod.status data) id);
         mret None)
        (fun error =>
           mret (Some {| errors := None;
                         message := Some "Database Error: Failed to Update Invoice." |}));
      match caught with
      | Some result => mret result
      | None =>
          _ ← revalidatePath "/dashboard/invoices";
          redirect "/dashboard/invoices"
      end
  end.

Definition deleteInvoice (id : string) : Async State :=
  try_catch
    (_ ← sql (Sql.DELETE_FROM_invoices id);
     _ ← revalidatePath "/dashboard/invoices";
     mret {| errors := None; message := Some "Deleted Invoice." |})
    (fun error =>
       mret {| errors := None;
               message := Some "Database Error: Failed to Delete Invoice." |}).

End Actions.

(** ** The edit page *)

Record Breadcrumb := {
  label : string;
  href : string;
  active : option bool
}.

Section EditPage.

(** The data layer is not part of these files: the record types that it
    returns and its two queries are parameters of the page. *)
Context {InvoiceForm CustomerField : Type}.
Variable fetchInvoiceById : string -> Async (option InvoiceForm).
Variable fetchCustomers : Async (list CustomerField).

(** The elements that the page renders. The form receives whatever the
    invoice query resolved to. *)
#[warnings="-register-all"]
Inductive Element :=
| main (children : list Element)
| Breadcrumbs (breadcrumbs : list Breadcrumb)
| Form (invoice : option InvoiceForm) (customers : list CustomerField).

Definition edit_view (id : string) (invoice : option InvoiceForm)
    (customers : list CustomerField) : Element :=
  main
    [ Breadcrumbs
        [ {| label := "Invoices"; href := "/dashboard/invoices"; active := None |};
          {| label := "Edit Invoice";
             href := "/dashboard/invoices/" +:+ id +:+ "/edit";
             active := Some true |} ];
      Form invoice customers ].

(** The page that hands the result of the query to the form as it is. *)
Definition UncheckedPage (id : string) : Async Element :=
  '(invoice, customers) ← Promise_all (fetchInvoiceById id) fetchCustomers;
  mret (edit_view id invoice customers).

(** The page that calls [notFound] when the query found no invoice. *)
Definition Page (id : string) : Async Element :=
  '(invoice, customers) ← Promise_all (fetchInvoiceById id) fetchCustomers;
  match invoice with
  | None => notFound
  | Some _ => mret (edit_view id invoice customers)
  end.

(** Whether a rendered tree contains the edit form. *)
Fixpoint renders_form (e : Element) : bool :=
  match e with
  | main children => existsb renders_form children
  | Breadcrumbs _ => false
  | Form _ _ => true
  end.

End EditPage.

(** * Statements about the program *)

(** The object literal that the actions hand to the schema. *)
Definition form_fields (formData : FormData) : Zod.RawFields :=
  {| Zod.raw_customerId := FormData_get formData "customerId";
     Zod.raw_amount := FormData_get formData "amount";
     Zod.raw_status := FormData_get formData "status" |}.

(** The messages of the issues filed under [key]. *)
Definition messages_at (key : string) (error : list Zod.ZodIssue) : list string :=
  Zod.issue_message <$> filter (fun i => head (Zod.issue_path i) = Some key) error.

(** The message of the [.gt(0)] check of the amount. *)
Definition amount_message : string := "Please enter an amount greater than $0.".

(** The statements sent for validated data. *)
Definition insert_of (env : Env) (data : Zod.InvoiceFields) : Sql.Statement :=
  Sql.INSERT_INTO_invoices (Zod.customerId data)
    (Js.mul (Zod.amount data) (Js.of_Z 100)) (Zod.status data)
    (Date.date_string (now env)).

Definition update_of (id : string) (data : Zod.InvoiceFields) : Sql.Statement :=
  Sql.UPDATE_invoices (Zod.customerId data)
    (Js.mul (Zod.amount data) (Js.of_Z 100)) (Zod.status data) id.

(** Whether the code unit [c] occurs in [s]. *)
Fixpoint occurs (c : ascii) (s : string) : bool :=
  match s with
  | EmptyString => false
  | String x s' => bool_decide (x = c) || occurs c s'
  end.

(** [Math.round]: the nearest integer, halves going up. *)
Definition Math_round (x : Js.number) : Js.number :=
  match x with
  | S754_finite s m e =>
      if 0 <=? e then x
      else
        let z := ((if s then Z.neg m else Z.pos m) + 2 ^ (- e - 1)) / 2 ^ (- e) in
        if z =? 0 then S754_zero s else Js.of_Z z
  | _ => x
  end.

(** The cents that the specification asks for: [round(a * 100)]. *)
Definition rounded_cents (a : Js.number) : Js.number :=
  Math_round (Js.mul a (Js.of_Z 100)).

(** Whether a number is an integer. *)
Definition is_integer (x : Js.number) : bool :=
  match x with
  | S754_zero _ => true
  | S754_finite _ m e => (0 <=? e) || (Z.pos m mod 2 ^ (- e) =? 0)
  | _ => false
  end.

(** A date written with exactly four, two and two digits. *)
Definition digit (n : Z) : ascii := ascii_of_N (Z.to_N (48 + n mod 10)).

Definition YYYY_MM_DD (y m d : Z) : string :=
  String (digit (y / 1000)) (String (digit (y / 100)) (String (digit (y / 10))
    (String (digit y) (String "-" (String (digit (m / 10)) (String (digit m)
      (String "-" (String (digit (d / 10)) (String (digit d) EmptyString))))))))).


(** A create or update action as the specification describes the refusal
    of an amount that is not greater than zero: the action returns a
    result whose errors have an entry for [amount], and the world is as it
    was. [errors_of] reads the errors off what the action returns. *)
Definition refuses_nonpositive_amount {R : Type}
    (errors_of : R -> option (gmap string (list string)))
    (action : FormData -> Async R)
    (formData : FormData) (env : Env) (w : World) : Prop :=
  Js.le (Number (FormData_get formData "amount")) (Js.of_Z 0) = true ->
  exists (r : R) (errs : gmap string (list string)),
    action formData env w = (w, Return r) /\
    errors_of r = Some errs /\ is_Some (errs !! "amount").

(** A delete action as the specification describes it: when the statement
    completes, the rows of the identifier are gone, the listing is
    revalidated and the message of success is returned; when the statement
    throws, the database error message is returned; and it never leaves by
    a redirect. [message_of] reads the message off what the action
    returns. *)
Definition delete_reports {R : Type}
    (message_of : R -> option string)
    (deleteInvoice : string -> Async R)
    (id : string) (env : Env) (w : World) : Prop :=
  match sql_rejects env (Sql.DELETE_FROM_invoices id) (invoices w) with
  | None =>
      exists r : R,
        deleteInvoice id env w =
          ({| invoices := filter (fun r => Sql.id r <> id) (invoices w);
              effects := effects w ++
                [SqlStatement (Sql.DELETE_FROM_invoices id);
                 RevalidatePath "/dashboard/invoices"] |},
           Return r) /\
        message_of r = Some "Deleted Invoice."
  | Some _ =>
      exists r : R,
        snd (deleteInvoice id env w) = Return r /\
        message_of r = Some "Database Error: Failed to Delete Invoice."
  end /\
  (forall url, snd (deleteInvoice id env w) <> Throw (NEXT_REDIRECT url)).

(** What an action that resolves to [undefined] carries: no errors and no
    message. *)
Definition undefined_errors (_ : unit) : option (gmap string (list string)) := None.

Definition undefined_message (_ : unit) : option string := None.

Section Route.

Context {InvoiceForm CustomerField : Type}.





End Route.

(** ** Inputs used to exercise the statements *)

Definition accepting_env : Env :=
  {| now := 1793634245123;
     sql_rejects := fun _ _ => None;
     generated_id := fun _ => "7f3a";
     left_rejects_first := true |}.

Definition rejecting_env : Env :=
  {| now := 1793634245123;
     sql_rejects := fun _ _ => Some (Error "connection refused");
     generated_id := fun _ => "7f3a";
     left_rejects_first := true |}.

Definition sample_invoices : list Sql.Invoice :=
  [ {| Sql.id := "a1"; Sql.customer_id := "c1"; Sql.amount := Js.of_Z 15795;
       Sql.status := "pending"; Sql.date := "2022-12-06" |};
    {| Sql.id := "b2"; Sql.customer_id := "c2"; Sql.amount := Js.of_Z 20348;
       Sql.status := "paid"; Sql.date := "2022-11-14" |} ].

Definition sample_world : World :=
  {| invoices := sample_invoices; effects := [] |}.

Definition no_state : Actions.State :=
  {| Actions.errors := None; Actions.message := None |}.

Definition form (customerId amount status : string) : FormData :=
  [ ("customerId", FormString customerId);
    ("amount", FormString amount);
    ("status", FormString status) ].

Definition sample_data : Zod.InvoiceFields :=
  {| Zod.customerId := "c1"; Zod.amount := Js.StringToNumber "45.50";
     Zod.status := "pending" |}.

(** A data layer for the edit page: the first row with the identifier, and
    a customer list that resolves or is refused. *)
Definition find_invoice (id : string) : Async (option Sql.Invoice) :=
  fun _ w => (w, Return (head (filter (fun r => Sql.id r = id) (invoices w)))).


Definition customers_unavailable : Async (list string) :=
  throw (Error "Failed to fetch all customers.").

(** ** Further statements *)

(** The effects that a run from [w] to [w'] added. *)
Definition added_effects (w w' : World) : list Effect :=
  drop (length (effects w)) (effects w').

(** The identifiers of the rows of the table. *)
Definition ids (w : World) : list string := Sql.id <$> invoices w.

(** The invariant of a row in the data model: an amount greater than zero
    and one of the two statuses. *)
Definition valid_invoice (r : Sql.Invoice) : Prop :=
  Js.gt (Sql.amount r) (Js.of_Z 0) = true /\ Sql.status r ∈ ["pending"; "paid"].

(** A finite number whose exponent is not below the least exponent. *)
Definition exponent_ok (x : Js.number) : Prop :=
  match x with
  | S754_finite _ _ e => emin Js.prec Js.emax <= e
  | _ => True
  end.

(** A number that is NaN or carries the sign [sx]. *)
Definition has_sign (sx : bool) (x : Js.number) : Prop :=
  match x with
  | S754_zero s | S754_infinity s | S754_finite s _ _ => s = sx
  | S754_nan => True
  end.

(** * Properties *)

(** ** Validation *)

Section Validation.

Import Zod.

Lemma messages_at_app key l1 l2 :
  messages_at key (l1 ++ l2) = messages_at key l1 ++ messages_at key l2.
Proof. unfold messages_at. by rewrite filter_app, fmap_app. Qed.

Lemma messages_at_key key key' l :
  messages_at key (at_key key' <$> l) =
  if bool_decide (key' = key) then issue_message <$> l else [].
Proof.
  unfold messages_at. destruct (decide (key' = key)) as [->|Hne].
  - rewrite bool_decide_eq_true_2 by done.
    induction l as [|i l IH]; [done|].
    rewrite fmap_cons, filter_cons. simpl.
    rewrite decide_True by done. rewrite fmap_cons. by f_equal.
  - rewrite bool_decide_eq_false_2 by done.
    induction l as [|i l IH]; [done|].
    rewrite fmap_cons, filter_cons. simpl.
    rewrite decide_False by congruence. done.
Qed.

(** A field has an entry exactly when some issue is filed under it, and
    the entry lists the messages of these issues in order. *)
Lemma fieldErrors_lookup key error :
  fieldErrors error !! key =
  match messages_at key error with [] => None | msgs => Some msgs end.
Proof.
  unfold fieldErrors. induction error as [|i error IH] using rev_ind; [done|].
  rewrite foldl_app, messages_at_app. simpl.
  unfold messages_at at 2. rewrite filter_cons, filter_nil.
  destruct (issue_path i) as [|k path] eqn:Hpath; simpl.
  - by rewrite app_nil_r.
  - destruct (decide (k = key)) as [->|Hne].
    + rewrite decide_True by done. rewrite lookup_insert_eq, IH.
      by destruct (messages_at key error).
    + rewrite decide_False by congruence. rewrite lookup_insert_ne by done.
      simpl. by rewrite app_nil_r.
Qed.

Lemma safeParse_invalid_amount schema raw issues :
  field_amount schema (raw_amount raw) = INVALID issues ->
  safeParse schema raw =
  SafeParseError
    ((at_key "customerId" <$> issues_of (field_customerId schema (raw_customerId raw))) ++
     (at_key "amount" <$> issues) ++
     (at_key "status" <$> issues_of (field_status schema (raw_status raw)))).
Proof.
  intros Ha. unfold safeParse. rewrite Ha.
  by destruct (field_customerId _ _), (field_status _ _).
Qed.

Lemma fieldErrors_amount c a s :
  fieldErrors ((at_key "customerId" <$> c) ++ (at_key "amount" <$> a) ++
               (at_key "status" <$> s)) !! "amount" =
  match a with [] => None | _ => Some (issue_message <$> a) end.
Proof.
  rewrite fieldErrors_lookup, !messages_at_app, !messages_at_key.
  simpl. rewrite app_nil_r. by destruct a.
Qed.

Lemma amount_not_positive v :
  Js.le (Number v) (Js.of_Z 0) = true ->
  shape_amount Actions.FormSchema v =
  INVALID [ {| issue_code := too_small; issue_path := [];
               issue_message := amount_message |} ].
Proof.
  intros Hle. simpl. unfold coerce_number. simpl.
  by destruct (Number v) as [sg|[|]| |[|] m e].
Qed.

(** The amount schema accepts exactly the inputs that coerce to a number
    greater than zero, and yields that number. *)
Lemma amount_ok v a :
  shape_amount Actions.FormSchema v = OK a <->
  a = Number v /\ Js.gt a (Js.of_Z 0) = true.
Proof.
  simpl. unfold coerce_number. simpl.
  destruct (Number v) as [sg|[|]| |[|] m e] eqn:Hn; simpl; split;
    try (intros [= <-]; done); try (intros [-> [=]]; done);
    try discriminate.
Qed.

Lemma customerId_ok m v c :
  string_ m v = OK c <-> v = Some (FormString c).
Proof.
  unfold string_. destruct v as [[s|n]|]; split; intros H; by simplify_eq.
Qed.

Lemma status_ok values m v st :
  enum values m v = OK st <-> v = Some (FormString st) /\ st ∈ values.
Proof.
  unfold enum. destruct v as [[s|n]|]; [|split; [done|by intros [[=] _]]..].
  case_bool_decide as Hin; split.
  - by intros [= <-].
  - by intros [[= <-] _].
  - done.
  - intros [[= <-] ?]. done.
Qed.

(** A field that is refused comes with at least one issue. *)
Lemma customerId_invalid m v issues :
  string_ m v = INVALID issues -> issues <> [].
Proof. unfold string_. destruct v as [[s|n]|]; by intros [= <-]. Qed.

Lemma amount_invalid v issues :
  shape_amount Actions.FormSchema v = INVALID issues -> issues <> [].
Proof.
  simpl. unfold coerce_number. simpl.
  destruct (Js.isNaN _); [by intros [= <-]|].
  destruct (Js.le _ _); by intros [= <-].
Qed.

Lemma status_invalid values m v issues :
  enum values m v = INVALID issues -> issues <> [].
Proof.
  unfold enum. destruct v as [[s|n]|]; try by intros [= <-].
  case_bool_decide; by intros [= <-].
Qed.

End Validation.

(** ** Rejected submissions *)

Section Rejected.

Import Zod Actions.

Variables (prevState : State) (formData : FormData) (env : Env) (w : World).

Lemma create_rejects_amount :
  Js.le (Number (FormData_get formData "amount")) (Js.of_Z 0) = true ->
  exists errs,
    createInvoice prevState formData env w =
      (w, Return {| errors := Some errs;
                    message := Some "Missing Fields. Failed to Create Invoice." |}) /\
    errs !! "amount" = Some [amount_message].
Proof.
  intros Hle. unfold createInvoice.
  erewrite safeParse_invalid_amount by exact (amount_not_positive _ Hle).
  eexists. split; [reflexivity|]. by rewrite fieldErrors_amount.
Qed.

Lemma update_rejects_amount id :
  Js.le (Number (FormData_get formData "amount")) (Js.of_Z 0) = true ->
  exists errs,
    updateInvoice id prevState formData env w =
      (w, Return {| errors := Some errs;
                    message := Some "Missing Fields. Failed to Update Invoice." |}) /\
    errs !! "amount" = Some [amount_message].
Proof.
  intros Hle. unfold updateInvoice.
  erewrite safeParse_invalid_amount by exact (amount_not_positive _ Hle).
  eexists. split; [reflexivity|]. by rewrite fieldErrors_amount.
Qed.

End Rejected.

(** C1 as stated fails: the create and update actions that validate with
    [parse] have a schema without the check on the amount, and return no
    state. With the amount -5 they refuse nothing: the statement is sent
    and a row with the amount -500 is written. *)
Lemma amount_check_is_absent_with_parse :
  ~ refuses_nonpositive_amount undefined_errors ParseActions.createInvoice
      (form "c1" "-5" "paid") accepting_env sample_world /\
  ~ refuses_nonpositive_amount undefined_errors (ParseActions.updateInvoice "a1")
      (form "c1" "-5" "paid") accepting_env sample_world /\
  Js.le (Number (FormData_get (form "c1" "-5" "paid") "amount")) (Js.of_Z 0) = true /\
  ParseActions.createInvoice (form "c1" "-5" "paid") accepting_env sample_world =
    ({| invoices := sample_invoices ++
          [ {| Sql.id := "7f3a"; Sql.customer_id := "c1"; Sql.amount := Js.of_Z (-500);
               Sql.status := "paid"; Sql.date := "2026-11-02" |} ];
        effects :=
          [ SqlStatement (Sql.INSERT_INTO_invoices "c1" (Js.of_Z (-500)) "paid" "2026-11-02");
            RevalidatePath "/dashboard/invoices" ] |},
     Throw (NEXT_REDIRECT "/dashboard/invoices")).
Proof.
  split; [|split; [|split]].
  - intros Hclaim. destruct (Hclaim eq_refl) as (r & errs & Hrun & _).
    vm_compute in Hrun. discriminate Hrun.
  - intros Hclaim. destruct (Hclaim eq_refl) as (r & errs & Hrun & _).
    vm_compute in Hrun. discriminate Hrun.
  - reflexivity.
  - vm_compute. reflexivity.
Qed.

(** The actions that validate with [safeParse] do what the specification
    describes. *)
Lemma safeParse_actions_refuse prevState formData id env w :
  refuses_nonpositive_amount Actions.errors (Actions.createInvoice prevState)
    formData env w /\
  refuses_nonpositive_amount Actions.errors (Actions.updateInvoice id prevState)
    formData env w.
Proof.
  split; intros Hle.
  - destruct (create_rejects_amount prevState formData env w Hle)
      as (errs & Hrun & Hamount).
    eexists _, errs. split; [exact Hrun|]. split; [done|]. by rewrite Hamount.
  - destruct (update_rejects_amount prevState formData env w id Hle)
      as (errs & Hrun & Hamount).
    eexists _, errs. split; [exact Hrun|]. split; [done|]. by rewrite Hamount.
Qed.

(** C1, amended. The create action and the update action that validate
    with [safeParse] and return a state answer a submission whose amount
    coerces to a number that is not greater than zero with a state whose
    [errors] has an entry for [amount]; the world comes back as it was, so
    no statement was sent and no row was written. *)
Theorem nonpositive_amount_is_rejected
    (prevState : Actions.State) (formData : FormData) (id : string)
    (env : Env) (w : World) :
  Js.le (Number (FormData_get formData "amount")) (Js.of_Z 0) = true ->
  (exists st errs,
     Actions.createInvoice prevState formData env w = (w, Return st) /\
     Actions.errors st = Some errs /\ is_Some (errs !! "amount")) /\
  (exists st errs,
     Actions.updateInvoice id prevState formData env w = (w, Return st) /\
     Actions.errors st = Some errs /\ is_Some (errs !! "amount")).
Proof.
  intros Hle. split.
  - destruct (create_rejects_amount prevState formData env w Hle)
      as (errs & Hrun & Hamount).
    eexists _, errs. split; [exact Hrun|]. split; [done|]. by rewrite Hamount.
  - destruct (update_rejects_amount prevState formData env w id Hle)
      as (errs & Hrun & Hamount).
    eexists _, errs. split; [exact Hrun|]. split; [done|]. by rewrite Hamount.
Qed.

Lemma nonpositive_amount_is_rejected_witness :
  Js.le (Number (FormData_get (form "c1" "-5" "paid") "amount")) (Js.of_Z 0) = true /\
  exists st errs,
    Actions.createInvoice no_state (form "c1" "-5" "paid") accepting_env sample_world
      = (sample_world, Return st) /\
    Actions.errors st = Some errs /\ is_Some (errs !! "amount").
Proof.
  split; [reflexivity|].
  apply (nonpositive_amount_is_rejected no_state (form "c1" "-5" "paid") "a1"
           accepting_env sample_world).
  reflexivity.
Defined.

(** C10. When the amount field is absent or empty, [Number] gives 0, and
    both actions answer with exactly the message of the [.gt(0)] check
    under [amount]: no other message is filed for the field. *)
Theorem absent_amount_reads_as_zero
    (prevState : Actions.State) (formData : FormData) (id : string)
    (env : Env) (w : World) :
  FormData_get formData "amount" = None \/
  FormData_get formData "amount" = Some (FormString EmptyString) ->
  Number (FormData_get formData "amount") = Js.pos_zero /\
  (exists st errs,
     Actions.createInvoice prevState formData env w = (w, Return st) /\
     Actions.errors st = Some errs /\
     errs !! "amount" = Some ["Please enter an amount greater than $0."]) /\
  (exists st errs,
     Actions.updateInvoice id prevState formData env w = (w, Return st) /\
     Actions.errors st = Some errs /\
     errs !! "amount" = Some ["Please enter an amount greater than $0."]).
Proof.
  intros Habsent.
  assert (Hzero : Number (FormData_get formData "amount") = Js.pos_zero)
    by (destruct Habsent as [-> | ->]; reflexivity).
  assert (Hle : Js.le (Number (FormData_get formData "amount")) (Js.of_Z 0) = true)
    by (rewrite Hzero; reflexivity).
  split; [exact Hzero|]. split.
  - destruct (create_rejects_amount prevState formData env w Hle)
      as (errs & Hrun & Hamount).
    by eexists _, errs.
  - destruct (update_rejects_amount prevState formData env w id Hle)
      as (errs & Hrun & Hamount).
    by eexists _, errs.
Qed.

Lemma absent_amount_reads_as_zero_witness :
  Number (FormData_get [("customerId", FormString "c1")] "amount") = Js.pos_zero /\
  (exists st errs,
     Actions.createInvoice no_state [("customerId", FormString "c1")]
       accepting_env sample_world = (sample_world, Return st) /\
     Actions.errors st = Some errs /\
     errs !! "amount" = Some ["Please enter an amount greater than $0."]) /\
  (exists st errs,
     Actions.updateInvoice "a1" no_state [("customerId", FormString "c1")]
       accepting_env sample_world = (sample_world, Return st) /\
     Actions.errors st = Some errs /\
     errs !! "amount" = Some ["Please enter an amount greater than $0."]).
Proof.
  apply (absent_amount_reads_as_zero no_state [("customerId", FormString "c1")]
           "a1" accepting_env sample_world).
  left. reflexivity.
Defined.

(** ** The result of [safeParse] *)

Section SafeParse.

Import Zod.

Lemma fieldErrors_keys c a s key msgs :
  fieldErrors ((at_key "customerId" <$> c) ++ (at_key "amount" <$> a) ++
               (at_key "status" <$> s)) !! key = Some msgs ->
  key ∈ ["customerId"; "amount"; "status"] /\ msgs <> [].
Proof.
  rewrite fieldErrors_lookup, !messages_at_app, !messages_at_key.
  intros Hm. split.
  - repeat case_bool_decide; subst; set_solver.
  - intros ->. by destruct (_ ++ _).
Qed.

Lemma fieldErrors_nonempty c a s :
  c ++ a ++ s <> [] ->
  fieldErrors ((at_key "customerId" <$> c) ++ (at_key "amount" <$> a) ++
               (at_key "status" <$> s)) <> ∅.
Proof.
  intros Hne Hempty.
  assert (Hall : forall key,
    fieldErrors ((at_key "customerId" <$> c) ++ (at_key "amount" <$> a) ++
                 (at_key "status" <$> s)) !! key = None)
    by (intros key; by rewrite Hempty).
  pose proof (Hall "customerId") as Hc.
  pose proof (Hall "amount") as Ha.
  pose proof (Hall "status") as Hs.
  rewrite fieldErrors_lookup, !messages_at_app, !messages_at_key in Hc, Ha, Hs.
  simpl in Hc, Ha, Hs. rewrite ?app_nil_r in *.
  destruct c, a, s; simpl in *; done.
Qed.

End SafeParse.

(** ** Strings *)

Lemma occurs_app c s1 s2 : occurs c (s1 +:+ s2) = occurs c s1 || occurs c s2.
Proof.
  induction s1 as [|x s1 IH]; simpl; [done|].
  rewrite IH. by destruct (bool_decide (x = c)).
Qed.

(** Splitting gives, first, what precedes the first separator. *)
Lemma split_before c s rest :
  occurs c s = false -> split c (s +:+ String c rest) = s :: split c rest.
Proof.
  induction s as [|x s IH]; simpl.
  - intros _. by rewrite bool_decide_eq_true_2.
  - intros [Hx Hs]%orb_false_elim. rewrite Hx, (IH Hs). done.
Qed.

Lemma occurs_uint c u :
  (48 <= Js.code c <= 57 -> False) ->
  occurs c (NilEmpty.string_of_uint u) = false.
Proof.
  intros Hc. induction u; simpl; [done|..];
    rewrite IHu, orb_false_r; apply bool_decide_eq_false_2;
    intros <-; apply Hc; vm_compute; split; discriminate.
Qed.

Lemma occurs_decimal c n :
  (48 <= Js.code c <= 57 -> False) -> occurs c (Date.decimal n) = false.
Proof.
  intros Hc. unfold Date.decimal, NilZero.string_of_uint.
  destruct (N.to_uint _) eqn:Hu; rewrite <- ?Hu; try by apply occurs_uint.
  simpl. rewrite orb_false_r. apply bool_decide_eq_false_2.
  intros <-. apply Hc. vm_compute. split; discriminate.
Qed.

Lemma occurs_padStart c k s :
  (48 <= Js.code c <= 57 -> False) ->
  occurs c (Date.padStart k s) = occurs c s.
Proof.
  intros Hc. unfold Date.padStart. rewrite occurs_app.
  induction (k - String.length s)%nat as [|n IH]; simpl; [done|].
  rewrite <- orb_assoc, IH. rewrite bool_decide_eq_false_2; [done|].
  intros <-. apply Hc. vm_compute. split; discriminate.
Qed.

Lemma date_string_no_T t : occurs "T" (Date.date_string t) = false.
Proof.
  assert (HT : 48 <= Js.code "T" <= 57 -> False) by (vm_compute; intros [_ H]; by apply H).
  unfold Date.date_string, Date.year_string.
  rewrite !occurs_app, !occurs_padStart, !occurs_decimal by exact HT.
  case_match.
  - by rewrite occurs_padStart, occurs_decimal.
  - rewrite occurs_app, occurs_padStart, occurs_decimal by exact HT.
    by case_match.
Qed.

(** The date that the create action stores is the date part of the time
    stamp. *)
Lemma split_toISOString t :
  hd EmptyString (split "T" (Date.toISOString t)) = Date.date_string t.
Proof.
  unfold Date.toISOString.
  change (Date.date_string t +:+ "T" +:+ Date.time_string t +:+ "Z")
    with (Date.date_string t +:+ String "T" (Date.time_string t +:+ "Z")).
  by rewrite split_before by apply date_string_no_T.
Qed.

(** ** What the actions do, case by case *)

Section Runs.

Import Zod Actions.

Variables (prevState : State) (formData : FormData) (env : Env) (w : World).

Lemma createInvoice_run :
  createInvoice prevState formData env w =
  match safeParse CreateInvoice (form_fields formData) with
  | SafeParseError error =>
      (w, Return {| errors := Some (fieldErrors error);
                    message := Some "Missing Fields. Failed to Create Invoice." |})
  | SafeParseSuccess data =>
      match sql_rejects env (insert_of env data) (invoices w) with
      | Some _ =>
          (perform (SqlStatement (insert_of env data)) w,
           Return {| errors := None;
                     message := Some "Database Error: Failed to Create Invoice." |})
      | None =>
          ({| invoices :=
                Sql.execute (generated_id env (invoices w)) (insert_of env data)
                  (invoices w);
              effects := effects w ++
                [SqlStatement (insert_of env data);
                 RevalidatePath "/dashboard/invoices"] |},
           Throw (NEXT_REDIRECT "/dashboard/invoices"))
      end
  end.
Proof.
  unfold createInvoice. fold (form_fields formData).
  destruct (safeParse _ _) as [data|error]; [|done].
  unfold mbind, async_bind, new_Date_toISOString, try_catch, sql. simpl.
  rewrite split_toISOString. fold (insert_of env data).
  destruct (sql_rejects _ _ _); [done|].
  unfold perform. simpl. by rewrite <- app_assoc.
Qed.

Lemma updateInvoice_run id :
  updateInvoice id prevState formData env w =
  match safeParse UpdateInvoice (form_fields formData) with
  | SafeParseError error =>
      (w, Return {| errors := Some (fieldErrors error);
                    message := Some "Missing Fields. Failed to Update Invoice." |})
  | SafeParseSuccess data =>
      match sql_rejects env (update_of id data) (invoices w) with
      | Some _ =>
          (perform (SqlStatement (update_of id data)) w,
           Return {| errors := None;
                     message := Some "Database Error: Failed to Update Invoice." |})
      | None =>
          ({| invoices :=
                Sql.execute (generated_id env (invoices w)) (update_of id data)
                  (invoices w);
              effects := effects w ++
                [SqlStatement (update_of id data);
                 RevalidatePath "/dashboard/invoices"] |},
           Throw (NEXT_REDIRECT "/dashboard/invoices"))
      end
  end.
Proof.
  unfold updateInvoice. fold (form_fields formData).
  destruct (safeParse _ _) as [data|error]; [|done].
  unfold mbind, async_bind, try_catch, sql. simpl.
  fold (update_of id data).
  destruct (sql_rejects _ _ _); [done|].
  unfold perform. simpl. by rewrite <- app_assoc.
Qed.

Lemma deleteInvoice_run id :
  deleteInvoice id env w =
  match sql_rejects env (Sql.DELETE_FROM_invoices id) (invoices w) with
  | Some _ =>
      (perform (SqlStatement (Sql.DELETE_FROM_invoices id)) w,
       Return {| errors := None;
                 message := Some "Database Error: Failed to Delete Invoice." |})
  | None =>
      ({| invoices := filter (fun r => Sql.id r <> id) (invoices w);
          effects := effects w ++
            [SqlStatement (Sql.DELETE_FROM_invoices id);
             RevalidatePath "/dashboard/invoices"] |},
       Return {| errors := None; message := Some "Deleted Invoice." |})
  end.
Proof.
  unfold deleteInvoice, mbind, async_bind, try_catch, sql. simpl.
  destruct (sql_rejects _ _ _); [done|].
  unfold perform. simpl. by rewrite <- app_assoc.
Qed.

End Runs.

(** C7. [safeParse] is a function of the raw fields into a result of one
    of two forms, whatever the fields hold. A success carries the typed
    data: the submitted customer, the amount as a number greater than
    zero, a status among the two allowed. A failure carries issues whose
    flattened form is a non-empty map from field names to non-empty lists
    of messages, and it occurs only when some field is not of that kind.
    The actions built on it never throw a validation error. *)
Theorem safeParse_is_total (raw : Zod.RawFields) :
  match Zod.safeParse Actions.CreateInvoice raw with
  | Zod.SafeParseSuccess data =>
      Zod.raw_customerId raw = Some (FormString (Zod.customerId data)) /\
      Zod.amount data = Number (Zod.raw_amount raw) /\
      Js.gt (Zod.amount data) (Js.of_Z 0) = true /\
      Zod.raw_status raw = Some (FormString (Zod.status data)) /\
      Zod.status data ∈ ["pending"; "paid"]
  | Zod.SafeParseError error =>
      Zod.fieldErrors error <> ∅ /\
      (forall key msgs,
         Zod.fieldErrors error !! key = Some msgs ->
         key ∈ ["customerId"; "amount"; "status"] /\ msgs <> []) /\
      ~ ((exists c, Zod.raw_customerId raw = Some (FormString c)) /\
         Js.gt (Number (Zod.raw_amount raw)) (Js.of_Z 0) = true /\
         (exists s, Zod.raw_status raw = Some (FormString s) /\
                    s ∈ ["pending"; "paid"]))
  end /\
  Zod.safeParse Actions.UpdateInvoice raw = Zod.safeParse Actions.CreateInvoice raw /\
  forall prevState formData id env w issues,
    snd (Actions.createInvoice prevState formData env w) <> Throw (ZodError issues) /\
    snd (Actions.updateInvoice id prevState formData env w) <> Throw (ZodError issues).
Proof.
  split; [|split; [reflexivity|]].
  - assert (Hexact :
      (exists c, Zod.raw_customerId raw = Some (FormString c)) /\
      Js.gt (Number (Zod.raw_amount raw)) (Js.of_Z 0) = true /\
      (exists s, Zod.raw_status raw = Some (FormString s) /\ s ∈ ["pending"; "paid"]) ->
      exists data, Zod.safeParse Actions.CreateInvoice raw = Zod.SafeParseSuccess data).
    { intros ([c Hc] & Hgt & [s Hs]). unfold Zod.safeParse.
      pose proof (proj2 (customerId_ok (Some "Please select a customer.") _ _) Hc) as Hc'.
      pose proof (proj2 (amount_ok _ _) (conj eq_refl Hgt)) as Ha'.
      pose proof (proj2 (status_ok ["pending"; "paid"]
                           (Some "Please select an invoice status.") _ _) Hs) as Hs'.
      simpl in *. rewrite Hc', Ha', Hs'. by eexists. }
    revert Hexact. unfold Zod.safeParse.
    destruct (Zod.field_customerId _ _) as [c|ci] eqn:Hc;
      destruct (Zod.field_amount _ _) as [a|ai] eqn:Ha;
      destruct (Zod.field_status _ _) as [s|si] eqn:Hs; intros Hexact;
      try (split; [apply fieldErrors_nonempty; simpl
                  | split; [apply fieldErrors_keys
                           | intros Hvalid; by destruct (Hexact Hvalid)]]);
      try (apply customerId_invalid in Hc); try (apply amount_invalid in Ha);
      try (apply status_invalid in Hs);
      try (by destruct ci); try (by destruct ai); try (by destruct si).
    apply customerId_ok in Hc. apply amount_ok in Ha as [-> Hgt].
    apply status_ok in Hs as [-> Hin]. done.
  - intros prevState formData id env w issues.
    rewrite createInvoice_run, updateInvoice_run.
    split; repeat case_match; simpl; congruence.
Qed.

(** ** Failing writes *)

(** C5. When the data is valid and the database rejects the statement, the
    create and the update action return a state that has no [errors] and
    carries the message naming the failed operation. The state does not
    depend on the error [e], and the action returns instead of throwing. *)
Theorem write_failure_returns_generic_message
    (prevState : Actions.State) (formData : FormData) (id : string)
    (env : Env) (w : World) (data : Zod.InvoiceFields) (e : JsError) :
  Zod.safeParse Actions.CreateInvoice (form_fields formData)
    = Zod.SafeParseSuccess data ->
  (sql_rejects env (insert_of env data) (invoices w) = Some e ->
   Actions.createInvoice prevState formData env w =
     (perform (SqlStatement (insert_of env data)) w,
      Return {| Actions.errors := None;
                Actions.message := Some "Database Error: Failed to Create Invoice." |})) /\
  (sql_rejects env (update_of id data) (invoices w) = Some e ->
   Actions.updateInvoice id prevState formData env w =
     (perform (SqlStatement (update_of id data)) w,
      Return {| Actions.errors := None;
                Actions.message := Some "Database Error: Failed to Update Invoice." |})).
Proof.
  intros Hvalid. split; intros Hrejects.
  - rewrite createInvoice_run, Hvalid, Hrejects. done.
  - rewrite updateInvoice_run.
    change Actions.UpdateInvoice with Actions.CreateInvoice.
    rewrite Hvalid, Hrejects. done.
Qed.

Lemma write_failure_returns_generic_message_witness :
  Actions.createInvoice no_state (form "c1" "45.50" "pending") rejecting_env sample_world =
    (perform (SqlStatement (insert_of rejecting_env sample_data)) sample_world,
     Return {| Actions.errors := None;
               Actions.message := Some "Database Error: Failed to Create Invoice." |}) /\
  Actions.updateInvoice "a1" no_state (form "c1" "45.50" "pending") rejecting_env sample_world =
    (perform (SqlStatement (update_of "a1" sample_data)) sample_world,
     Return {| Actions.errors := None;
               Actions.message := Some "Database Error: Failed to Update Invoice." |}).
Proof.
  destruct (write_failure_returns_generic_message no_state
              (form "c1" "45.50" "pending") "a1" rejecting_env sample_world
              sample_data (Error "connection refused")) as [Hcreate Hupdate].
  - vm_compute. reflexivity.
  - split; [apply Hcreate | apply Hupdate]; reflexivity.
Defined.

(** ** Deleting *)

(** The delete action without the [try] block, as it runs. *)
Lemma parse_deleteInvoice_run id env w :
  ParseActions.deleteInvoice id env w =
  match sql_rejects env (Sql.DELETE_FROM_invoices id) (invoices w) with
  | Some e => (perform (SqlStatement (Sql.DELETE_FROM_invoices id)) w, Throw e)
  | None =>
      ({| invoices := filter (fun r => Sql.id r <> id) (invoices w);
          effects := effects w ++
            [SqlStatement (Sql.DELETE_FROM_invoices id);
             RevalidatePath "/dashboard/invoices"] |},
       Return tt)
  end.
Proof.
  unfold ParseActions.deleteInvoice, mbind, async_bind, sql. simpl.
  destruct (sql_rejects _ _ _); [done|].
  unfold revalidatePath, perform. simpl. by rewrite <- app_assoc.
Qed.

(** C6 as stated fails: the delete action without the [try] block returns
    no message. When the statement completes it resolves to [undefined],
    and when the statement throws, the action throws that error. *)
Lemma delete_claim_fails_without_try :
  ~ delete_reports undefined_message ParseActions.deleteInvoice "a1"
      accepting_env sample_world /\
  ~ delete_reports undefined_message ParseActions.deleteInvoice "a1"
      rejecting_env sample_world /\
  snd (ParseActions.deleteInvoice "a1" accepting_env sample_world) = Return tt /\
  snd (ParseActions.deleteInvoice "a1" rejecting_env sample_world) =
    Throw (Error "connection refused").
Proof.
  split; [|split; [|split]].
  - intros [Hclaim _]. simpl in Hclaim.
    destruct Hclaim as (r & _ & Hmessage). discriminate Hmessage.
  - intros [Hclaim _]. simpl in Hclaim.
    destruct Hclaim as (r & Hrun & _). discriminate Hrun.
  - reflexivity.
  - reflexivity.
Qed.

(** The delete action with the [try] block does what the specification
    describes. *)
Lemma delete_reports_with_try id env w :
  delete_reports Actions.message Actions.deleteInvoice id env w.
Proof.
  unfold delete_reports. rewrite deleteInvoice_run.
  destruct (sql_rejects _ _ _); (split; [by eexists|done]).
Qed.

(** C6, amended. The delete action that wraps the statement in a [try]
    block, when the statement completes, leaves the table without the rows
    of that identifier, revalidates the listing after the statement and
    returns the message of success; when the statement throws it returns
    the database error message. It never leaves by a redirect. *)
Theorem delete_outcomes (id : string) (env : Env) (w : World) :
  match sql_rejects env (Sql.DELETE_FROM_invoices id) (invoices w) with
  | None =>
      Actions.deleteInvoice id env w =
        ({| invoices := filter (fun r => Sql.id r <> id) (invoices w);
            effects := effects w ++
              [SqlStatement (Sql.DELETE_FROM_invoices id);
               RevalidatePath "/dashboard/invoices"] |},
         Return {| Actions.errors := None;
                   Actions.message := Some "Deleted Invoice." |})
  | Some _ =>
      snd (Actions.deleteInvoice id env w) =
        Return {| Actions.errors := None;
                  Actions.message := Some "Database Error: Failed to Delete Invoice." |}
  end /\
  (forall r, r ∈ filter (fun r => Sql.id r <> id) (invoices w) <->
             r ∈ invoices w /\ Sql.id r <> id) /\
  (forall url, snd (Actions.deleteInvoice id env w) <> Throw (NEXT_REDIRECT url)).
Proof.
  rewrite deleteInvoice_run. split; [|split].
  - by destruct (sql_rejects _ _ _).
  - intros r. rewrite list_elem_of_filter. tauto.
  - intros url. by destruct (sql_rejects _ _ _).
Qed.

(** C9. When the DELETE statement is rejected, the delete action returns
    the error message after the statement alone: the table is as it was
    and no revalidation is among the effects it added. *)
Theorem delete_failure_skips_revalidation
    (id : string) (env : Env) (w : World) (e : JsError) :
  sql_rejects env (Sql.DELETE_FROM_invoices id) (invoices w) = Some e ->
  Actions.deleteInvoice id env w =
    ({| invoices := invoices w;
        effects := effects w ++ [SqlStatement (Sql.DELETE_FROM_invoices id)] |},
     Return {| Actions.errors := None;
               Actions.message := Some "Database Error: Failed to Delete Invoice." |}) /\
  forall path,
    RevalidatePath path ∉
      drop (length (effects w)) (effects (fst (Actions.deleteInvoice id env w))).
Proof.
  intros Hrejects. rewrite deleteInvoice_run, Hrejects. split; [done|].
  intros path. simpl. rewrite drop_app_length, list_elem_of_singleton. done.
Qed.

Lemma delete_failure_skips_revalidation_witness :
  Actions.deleteInvoice "a1" rejecting_env sample_world =
    ({| invoices := sample_invoices;
        effects := [SqlStatement (Sql.DELETE_FROM_invoices "a1")] |},
     Return {| Actions.errors := None;
               Actions.message := Some "Database Error: Failed to Delete Invoice." |}).
Proof.
  apply (delete_failure_skips_revalidation "a1" rejecting_env sample_world
           (Error "connection refused")).
  reflexivity.
Defined.

(** ** Updating *)

(** C8. A successful update keeps the table's length and order. A row of
    the given identifier keeps its identifier and its date and takes the
    submitted customer, the amount times 100 and the submitted status;
    every other row is the row it was. *)
Theorem update_overwrites_three_fields
    (id : string) (prevState : Actions.State) (formData : FormData)
    (env : Env) (w : World) (data : Zod.InvoiceFields) :
  Zod.safeParse Actions.UpdateInvoice (form_fields formData)
    = Zod.SafeParseSuccess data ->
  sql_rejects env (update_of id data) (invoices w) = None ->
  let after := invoices (fst (Actions.updateInvoice id prevState formData env w)) in
  length after = length (invoices w) /\
  forall (i : nat) (r : Sql.Invoice),
    invoices w !! i = Some r ->
    exists r',
      after !! i = Some r' /\
      Sql.id r' = Sql.id r /\
      Sql.date r' = Sql.date r /\
      (Sql.id r = id ->
         Sql.customer_id r' = Zod.customerId data /\
         Sql.amount r' = Js.mul (Zod.amount data) (Js.of_Z 100) /\
         Sql.status r' = Zod.status data) /\
      (Sql.id r <> id -> r' = r).
Proof.
  intros Hvalid Haccepts after. subst after.
  rewrite updateInvoice_run, Hvalid, Haccepts. simpl. split.
  - by rewrite length_fmap.
  - intros i r Hr. rewrite list_lookup_fmap, Hr. simpl.
    eexists. split; [reflexivity|].
    case_bool_decide; simpl; repeat split; done.
Qed.

Lemma update_overwrites_three_fields_witness :
  invoices (fst (Actions.updateInvoice "a1" no_state (form "c1" "45.50" "pending")
                   accepting_env sample_world)) !! 0%nat =
    Some {| Sql.id := "a1"; Sql.customer_id := "c1"; Sql.amount := Js.of_Z 4550;
            Sql.status := "pending"; Sql.date := "2022-12-06" |} /\
  invoices (fst (Actions.updateInvoice "a1" no_state (form "c1" "45.50" "pending")
                   accepting_env sample_world)) !! 1%nat =
    sample_invoices !! 1%nat.
Proof.
  destruct (update_overwrites_three_fields "a1" no_state
              (form "c1" "45.50" "pending") accepting_env sample_world
              sample_data) as [_ Hrows]; [vm_compute; reflexivity | reflexivity |].
  split.
  - destruct (Hrows 0%nat _ eq_refl) as (r' & -> & Hid & Hdate & Hset & _).
    destruct (Hset eq_refl) as (Hc & Ha & Hs). destruct r'; simpl in *. by subst.
  - destruct (Hrows 1%nat _ eq_refl) as (r' & -> & _ & _ & _ & Hsame).
    by rewrite Hsame.
Defined.

(** ** Calendar dates *)

Section Calendar.

Import Date.

Lemma DayFromYear_succ y : DayFromYear (y + 1) = DayFromYear y + DaysInYear y.
Proof.
  unfold DayFromYear, DaysInYear.
  destruct (Z.eqb_spec (y mod 4) 0), (Z.eqb_spec (y mod 100) 0),
    (Z.eqb_spec (y mod 400) 0); simpl; Z.div_mod_to_equations; lia.
Qed.

(** The year found is the one whose days contain the day of [t]. *)
Lemma YearFromTime_spec t :
  DayFromYear (YearFromTime t) <= Day t < DayFromYear (YearFromTime t + 1).
Proof.
  unfold YearFromTime. set (d := Day t). clearbody d.
  set (y := 1970 + d * 400 / 146097).
  assert (Hy : DayFromYear (y - 1) <= d < DayFromYear (y + 2)).
  { subst y. unfold DayFromYear. Z.div_mod_to_equations. lia. }
  clearbody y.
  destruct (Z.leb_spec (DayFromYear (y + 1)) d).
  - replace (y + 1 + 1) with (y + 2) by lia. lia.
  - destruct (Z.ltb_spec d (DayFromYear y)).
    + replace (y - 1 + 1) with y by lia. lia.
    + lia.
Qed.

Lemma DayWithinYear_bounds t : 0 <= DayWithinYear t < 365 + InLeapYear t.
Proof.
  unfold DayWithinYear, InLeapYear.
  pose proof (YearFromTime_spec t) as Hy.
  rewrite DayFromYear_succ in Hy.
  assert (Hlen : DaysInYear (YearFromTime t) = 365 \/ DaysInYear (YearFromTime t) = 366)
    by (unfold DaysInYear; repeat case_match; auto).
  destruct Hlen as [Hlen | Hlen]; rewrite Hlen in *.
  - change (365 =? 366) with false. lia.
  - change (366 =? 366) with true. lia.
Qed.

Ltac month_cases :=
  repeat match goal with
         | |- context [if ?a <? ?b then _ else _] =>
             destruct (Z.ltb_spec a b); simpl
         end.

Lemma MonthFromTime_bounds t : 0 <= MonthFromTime t <= 11.
Proof. unfold MonthFromTime. month_cases; lia. Qed.

Lemma DateFromTime_bounds t : 1 <= DateFromTime t <= 31.
Proof.
  unfold DateFromTime, MonthFromTime.
  pose proof (DayWithinYear_bounds t) as Hd.
  assert (Hleap : InLeapYear t = 0 \/ InLeapYear t = 1)
    by (unfold InLeapYear; case_match; auto).
  set (d := DayWithinYear t) in *. set (leap := InLeapYear t) in *.
  clearbody d leap. month_cases; lia.
Qed.

(** Padding the decimal digits gives the fixed-width digits. *)
Lemma padStart_2 n :
  0 <= n <= 99 ->
  padStart 2 (decimal n) = String (digit (n / 10)) (String (digit n) EmptyString).
Proof.
  intros Hn.
  assert (Hall : forallb (fun n =>
            String.eqb (padStart 2 (decimal n))
              (String (digit (n / 10)) (String (digit n) EmptyString)))
            (seqZ 0 100) = true) by (vm_compute; reflexivity).
  rewrite List.forallb_forall in Hall. apply String.eqb_eq, Hall.
  apply list_elem_of_In, elem_of_seqZ. lia.
Qed.

Lemma padStart_4 n :
  0 <= n <= 9999 ->
  padStart 4 (decimal n) =
  String (digit (n / 1000)) (String (digit (n / 100)) (String (digit (n / 10))
    (String (digit n) EmptyString))).
Proof.
  intros Hn.
  assert (Hall : forallb (fun n =>
            String.eqb (padStart 4 (decimal n))
              (String (digit (n / 1000)) (String (digit (n / 100))
                 (String (digit (n / 10)) (String (digit n) EmptyString)))))
            (seqZ 0 10000) = true) by (vm_compute; reflexivity).
  rewrite List.forallb_forall in Hall. apply String.eqb_eq, Hall.
  apply list_elem_of_In, elem_of_seqZ. lia.
Qed.

(** For the years 0 to 9999 the date part is written YYYY-MM-DD, with the
    month counted from 1. *)
Lemma date_string_YYYY_MM_DD t :
  0 <= YearFromTime t <= 9999 ->
  date_string t = YYYY_MM_DD (YearFromTime t) (MonthFromTime t + 1) (DateFromTime t).
Proof.
  intros Hy. unfold date_string, year_string.
  pose proof (MonthFromTime_bounds t). pose proof (DateFromTime_bounds t).
  rewrite (proj2 (andb_true_iff _ _)) by (split; lia).
  rewrite padStart_4, !padStart_2 by lia. reflexivity.
Qed.

End Calendar.

(** ** Creating *)




(** The scenario of a successful submission: 45.50 is stored as 4550. *)
Example create_scenario :
  Actions.createInvoice no_state (form "c1" "45.50" "pending") accepting_env sample_world =
    ({| invoices := sample_invoices ++
          [ {| Sql.id := "7f3a"; Sql.customer_id := "c1"; Sql.amount := Js.of_Z 4550;
               Sql.status := "pending"; Sql.date := "2026-11-02" |} ];
        effects :=
          [ SqlStatement (Sql.INSERT_INTO_invoices "c1" (Js.of_Z 4550) "pending" "2026-11-02");
            RevalidatePath "/dashboard/invoices" ] |},
     Throw (NEXT_REDIRECT "/dashboard/invoices")).
Proof. vm_compute. reflexivity. Qed.

(** C3. With the amount 1.1 the create action stores 110.00000000000001,
    the product of the two numbers, where the rounded cents are 110: the
    stored amount is not an integer and differs from [round(a * 100)]. The
    update action stores the same product. Dividing the stored amount by
    100 does give 1.1 again. *)
Theorem cents_are_not_rounded :
  let stored := Js.mul (Js.StringToNumber "1.1") (Js.of_Z 100) in
  invoices (fst (Actions.createInvoice no_state (form "c1" "1.1" "pending")
                   accepting_env sample_world)) =
    sample_invoices ++
      [ {| Sql.id := "7f3a"; Sql.customer_id := "c1"; Sql.amount := stored;
           Sql.status := "pending"; Sql.date := "2026-11-02" |} ] /\
  (Sql.amount <$> invoices (fst (Actions.updateInvoice "a1" no_state
                                   (form "c1" "1.1" "pending")
                                   accepting_env sample_world)) !! 0%nat) = Some stored /\
  stored = S754_finite false 7740561859543041 (-46) /\
  is_integer stored = false /\
  rounded_cents (Js.StringToNumber "1.1") = Js.of_Z 110 /\
  Js.of_Z 110 = S754_finite false 7740561859543040 (-46) /\
  stored <> rounded_cents (Js.StringToNumber "1.1") /\
  Js.div stored (Js.of_Z 100) = Js.StringToNumber "1.1".
Proof.
  vm_compute. repeat split; discriminate.
Qed.

(** ** The edit page *)




(** With an invoice and the customers at hand the page renders the
    breadcrumbs and the form filled with them. *)
Lemma Page_renders_form
    {InvoiceForm CustomerField : Type}
    (fetchInvoiceById : string -> Async (option InvoiceForm))
    (fetchCustomers : Async (list CustomerField))
    (id : string) (env : Env) (w w1 w2 : World) invoice customers :
  fetchInvoiceById id env w = (w1, Return (Some invoice)) ->
  fetchCustomers env w1 = (w2, Return customers) ->
  Page fetchInvoiceById fetchCustomers id env w =
    (w2, Return (edit_view id (Some invoice) customers)).
Proof.
  intros Hinvoice Hcustomers.
  unfold Page, mbind, async_bind, Promise_all.
  by rewrite Hinvoice, Hcustomers.
Qed.

(** The page without the check hands the missing invoice to the form. *)
Lemma UncheckedPage_renders_form
    {InvoiceForm CustomerField : Type}
    (fetchInvoiceById : string -> Async (option InvoiceForm))
    (fetchCustomers : Async (list CustomerField))
    (id : string) (env : Env) (w w1 w2 : World) invoice customers :
  fetchInvoiceById id env w = (w1, Return invoice) ->
  fetchCustomers env w1 = (w2, Return customers) ->
  UncheckedPage fetchInvoiceById fetchCustomers id env w =
    (w2, Return (edit_view id invoice customers)) /\
  renders_form (edit_view id invoice customers) = true.
Proof.
  intros Hinvoice Hcustomers.
  unfold UncheckedPage, mbind, async_bind, Promise_all.
  by rewrite Hinvoice, Hcustomers.
Qed.

(** ** The actions that use [parse] *)

(** [parse] throws where [safeParse] reports a failure. *)
Lemma parse_throws schema raw env w :
  ParseActions.parse schema raw env w =
  match Zod.safeParse schema raw with
  | Zod.SafeParseSuccess data => (w, Return data)
  | Zod.SafeParseError error => (w, Throw (ZodError error))
  end.
Proof. unfold ParseActions.parse. by destruct (Zod.safeParse _ _). Qed.

(** Their schema has no check on the amount: a negative amount is stored. *)
Example parse_createInvoice_negative_amount :
  ParseActions.createInvoice (form "c1" "-5" "paid") accepting_env sample_world =
    ({| invoices := sample_invoices ++
          [ {| Sql.id := "7f3a"; Sql.customer_id := "c1"; Sql.amount := Js.of_Z (-500);
               Sql.status := "paid"; Sql.date := "2026-11-02" |} ];
        effects :=
          [ SqlStatement (Sql.INSERT_INTO_invoices "c1" (Js.of_Z (-500)) "paid" "2026-11-02");
            RevalidatePath "/dashboard/invoices" ] |},
     Throw (NEXT_REDIRECT "/dashboard/invoices")).
Proof. vm_compute. reflexivity. Qed.

(** ** The model on known values *)

Example number_45_50 :
  Js.StringToNumber "45.50" = S754_finite false 6403555720167424 (-47) /\
  Js.mul (Js.StringToNumber "45.50") (Js.of_Z 100) = Js.of_Z 4550.
Proof. vm_compute. done. Qed.

Example number_literals :
  Js.StringToNumber "0.1" = S754_finite false 7205759403792794 (-56) /\
  Js.StringToNumber "  1e3 " = Js.of_Z 1000 /\
  Js.StringToNumber "0x1F" = Js.of_Z 31 /\
  Js.StringToNumber "-0" = S754_zero true /\
  Js.StringToNumber "-Infinity" = S754_infinity true /\
  Js.StringToNumber "12abc" = Js.NaN /\
  Js.StringToNumber "1e400" = Js.Infinity /\
  Js.StringToNumber "2e-324" = Js.pos_zero /\
  Js.StringToNumber "9007199254740993" = Js.of_Z 9007199254740992 /\
  Number (Some (FormFile "invoice.pdf")) = Js.NaN.
Proof. vm_compute. repeat split. Qed.

Example time_stamps :
  Date.toISOString 0 = "1970-01-01T00:00:00.000Z" /\
  Date.toISOString (-1) = "1969-12-31T23:59:59.999Z" /\
  Date.toISOString 951782400000 = "2000-02-29T00:00:00.000Z" /\
  Date.toISOString 1793634245123 = "2026-11-02T15:44:05.123Z" /\
  Date.toISOString 253402300800000 = "+010000-01-01T00:00:00.000Z" /\
  split "T" "2026-11-02T15:44:05.123Z" = ["2026-11-02"; "15:44:05.123Z"].
Proof. vm_compute. repeat split. Qed.

(** * Further properties *)

(** ** What the errors report *)

Section Reports.

Import Zod Actions.

Lemma fieldErrors_customerId c a s :
  fieldErrors ((at_key "customerId" <$> c) ++ (at_key "amount" <$> a) ++
               (at_key "status" <$> s)) !! "customerId" =
  match c with [] => None | _ => Some (issue_message <$> c) end.
Proof.
  rewrite fieldErrors_lookup, !messages_at_app, !messages_at_key.
  simpl. rewrite app_nil_r. by destruct c.
Qed.

Lemma fieldErrors_status c a s :
  fieldErrors ((at_key "customerId" <$> c) ++ (at_key "amount" <$> a) ++
               (at_key "status" <$> s)) !! "status" =
  match s with [] => None | _ => Some (issue_message <$> s) end.
Proof.
  rewrite fieldErrors_lookup, !messages_at_app, !messages_at_key.
  simpl. by destruct s.
Qed.

(** A failure of [safeParse] carries the issues of the three fields. *)
Lemma safeParse_error schema raw error :
  safeParse schema raw = SafeParseError error ->
  error =
    (at_key "customerId" <$> issues_of (field_customerId schema (raw_customerId raw))) ++
    (at_key "amount" <$> issues_of (field_amount schema (raw_amount raw))) ++
    (at_key "status" <$> issues_of (field_status schema (raw_status raw))).
Proof.
  unfold safeParse.
  destruct (field_customerId _ _), (field_amount _ _), (field_status _ _);
    by intros [= <-].
Qed.

(** One refused field is enough for [safeParse] to fail. *)
Lemma safeParse_fails schema raw :
  (exists l, field_customerId schema (raw_customerId raw) = INVALID l) \/
  (exists l, field_amount schema (raw_amount raw) = INVALID l) \/
  (exists l, field_status schema (raw_status raw) = INVALID l) ->
  exists error, safeParse schema raw = SafeParseError error.
Proof.
  unfold safeParse.
  intros [[l Hl] | [[l Hl] | [l Hl]]]; rewrite Hl;
    repeat case_match; by eexists.
Qed.

Lemma safeParse_fails_nonempty schema raw :
  (exists l, field_customerId schema (raw_customerId raw) = INVALID l /\ l <> []) \/
  (exists l, field_amount schema (raw_amount raw) = INVALID l /\ l <> []) \/
  (exists l, field_status schema (raw_status raw) = INVALID l /\ l <> []) ->
  exists error, safeParse schema raw = SafeParseError error /\ error <> [].
Proof.
  intros Hinvalid.
  assert (exists error, safeParse schema raw = SafeParseError error)
    as [error Herror].
  { apply safeParse_fails.
    destruct Hinvalid as [(l & Hl & _) | [(l & Hl & _) | (l & Hl & _)]]; eauto. }
  exists error. split; [done|].
  rewrite (safeParse_error _ _ _ Herror).
  intros (Hc & (Ha & Hs)%app_eq_nil)%app_eq_nil.
  apply fmap_nil_inv in Hc, Ha, Hs.
  destruct Hinvalid as [(l & Hl & Hne) | [(l & Hl & Hne) | (l & Hl & Hne)]];
    rewrite Hl in *; simpl in *; done.
Qed.

Variables (prevState : State) (formData : FormData) (env : Env) (w : World).

Lemma create_validation_failure error :
  safeParse CreateInvoice (form_fields formData) = SafeParseError error ->
  createInvoice prevState formData env w =
    (w, Return {| errors := Some (fieldErrors error);
                  message := Some "Missing Fields. Failed to Create Invoice." |}).
Proof. intros Herror. by rewrite createInvoice_run, Herror. Qed.

Lemma update_validation_failure id error :
  safeParse CreateInvoice (form_fields formData) = SafeParseError error ->
  updateInvoice id prevState formData env w =
    (w, Return {| errors := Some (fieldErrors error);
                  message := Some "Missing Fields. Failed to Update Invoice." |}).
Proof.
  intros Herror. rewrite updateInvoice_run.
  change UpdateInvoice with CreateInvoice. by rewrite Herror.
Qed.

(** When validation fails, both actions return the same [errors], and the
    entry of each field lists the messages of the issues of that field. *)
Lemma errors_of_failure id :
  (exists l, field_customerId CreateInvoice (FormData_get formData "customerId") = INVALID l) \/
  (exists l, field_amount CreateInvoice (FormData_get formData "amount") = INVALID l) \/
  (exists l, field_status CreateInvoice (FormData_get formData "status") = INVALID l) ->
  exists errs,
    createInvoice prevState formData env w =
      (w, Return {| errors := Some errs;
                    message := Some "Missing Fields. Failed to Create Invoice." |}) /\
    updateInvoice id prevState formData env w =
      (w, Return {| errors := Some errs;
                    message := Some "Missing Fields. Failed to Update Invoice." |}) /\
    errs !! "customerId" =
      match issues_of (field_customerId CreateInvoice (FormData_get formData "customerId")) with
      | [] => None | l => Some (issue_message <$> l) end /\
    errs !! "amount" =
      match issues_of (field_amount CreateInvoice (FormData_get formData "amount")) with
      | [] => None | l => Some (issue_message <$> l) end /\
    errs !! "status" =
      match issues_of (field_status CreateInvoice (FormData_get formData "status")) with
      | [] => None | l => Some (issue_message <$> l) end.
Proof.
  intros Hinvalid.
  destruct (safeParse_fails CreateInvoice (form_fields formData) Hinvalid)
    as [error Herror].
  exists (fieldErrors error).
  split; [by apply create_validation_failure|].
  split; [by apply update_validation_failure|].
  rewrite (safeParse_error _ _ _ Herror).
  rewrite fieldErrors_customerId, fieldErrors_amount, fieldErrors_status.
  simpl. repeat split; by case_match.
Qed.

End Reports.

(** X1. A customer field that is absent or a file is reported under
    [customerId] with the message of the schema, by both actions, and
    nothing is written. *)
Theorem missing_customer_is_reported
    (prevState : Actions.State) (formData : FormData) (id : string)
    (env : Env) (w : World) :
  (forall c, FormData_get formData "customerId" <> Some (FormString c)) ->
  exists errs,
    Actions.createInvoice prevState formData env w =
      (w, Return {| Actions.errors := Some errs;
                    Actions.message := Some "Missing Fields. Failed to Create Invoice." |}) /\
    Actions.updateInvoice id prevState formData env w =
      (w, Return {| Actions.errors := Some errs;
                    Actions.message := Some "Missing Fields. Failed to Update Invoice." |}) /\
    errs !! "customerId" = Some ["Please select a customer."].
Proof.
  intros Hnot.
  assert (Hc : Zod.field_customerId Actions.CreateInvoice
                 (FormData_get formData "customerId") =
               Zod.INVALID [ {| Zod.issue_code := Zod.invalid_type; Zod.issue_path := [];
                                Zod.issue_message := "Please select a customer." |} ]).
  { simpl. unfold Zod.string_.
    destruct (FormData_get formData "customerId") as [[c|n]|]; try done.
    by destruct (Hnot c). }
  destruct (errors_of_failure prevState formData env w id) as
    (errs & Hcreate & Hupdate & Hcust & _); [left; by eexists|].
  exists errs. rewrite Hc in Hcust. done.
Qed.

Lemma missing_customer_is_reported_witness :
  exists errs,
    Actions.createInvoice no_state [("amount", FormString "12"); ("status", FormString "paid")]
      accepting_env sample_world =
      (sample_world,
       Return {| Actions.errors := Some errs;
                 Actions.message := Some "Missing Fields. Failed to Create Invoice." |}) /\
    errs !! "customerId" = Some ["Please select a customer."].
Proof.
  destruct (missing_customer_is_reported no_state
              [("amount", FormString "12"); ("status", FormString "paid")] "a1"
              accepting_env sample_world) as (errs & Hcreate & _ & Hcust).
  - intros c. vm_compute. discriminate.
  - by exists errs.
Defined.

(** X2. A status field that is absent or a file is reported under [status]
    with the message of the schema, by both actions. *)
Theorem missing_status_is_reported
    (prevState : Actions.State) (formData : FormData) (id : string)
    (env : Env) (w : World) :
  (forall s, FormData_get formData "status" <> Some (FormString s)) ->
  exists errs,
    Actions.createInvoice prevState formData env w =
      (w, Return {| Actions.errors := Some errs;
                    Actions.message := Some "Missing Fields. Failed to Create Invoice." |}) /\
    Actions.updateInvoice id prevState formData env w =
      (w, Return {| Actions.errors := Some errs;
                    Actions.message := Some "Missing Fields. Failed to Update Invoice." |}) /\
    errs !! "status" = Some ["Please select an invoice status."].
Proof.
  intros Hnot.
  assert (Hs : Zod.field_status Actions.CreateInvoice
                 (FormData_get formData "status") =
               Zod.INVALID [ {| Zod.issue_code := Zod.invalid_type; Zod.issue_path := [];
                                Zod.issue_message := "Please select an invoice status." |} ]).
  { simpl. unfold Zod.enum.
    destruct (FormData_get formData "status") as [[s|n]|]; try done.
    by destruct (Hnot s). }
  destruct (errors_of_failure prevState formData env w id) as
    (errs & Hcreate & Hupdate & _ & _ & Hstatus); [right; right; by eexists|].
  exists errs. rewrite Hs in Hstatus. done.
Qed.

Lemma missing_status_is_reported_witness :
  exists errs,
    Actions.createInvoice no_state [("customerId", FormString "c1"); ("amount", FormString "12")]
      accepting_env sample_world =
      (sample_world,
       Return {| Actions.errors := Some errs;
                 Actions.message := Some "Missing Fields. Failed to Create Invoice." |}) /\
    errs !! "status" = Some ["Please select an invoice status."].
Proof.
  destruct (missing_status_is_reported no_state
              [("customerId", FormString "c1"); ("amount", FormString "12")] "a1"
              accepting_env sample_world) as (errs & Hcreate & _ & Hstatus).
  - intros c. vm_compute. discriminate.
  - by exists errs.
Defined.

(** X3. A status that is a string other than the two allowed is reported
    under [status] with the default message of an enum, which quotes the
    options and the value received, and not with the message that the
    schema gives for a missing status. *)
Theorem unknown_status_is_reported
    (prevState : Actions.State) (formData : FormData) (id : string)
    (env : Env) (w : World) (s : string) :
  FormData_get formData "status" = Some (FormString s) ->
  s ∉ ["pending"; "paid"] ->
  exists errs,
    Actions.createInvoice prevState formData env w =
      (w, Return {| Actions.errors := Some errs;
                    Actions.message := Some "Missing Fields. Failed to Create Invoice." |}) /\
    Actions.updateInvoice id prevState formData env w =
      (w, Return {| Actions.errors := Some errs;
                    Actions.message := Some "Missing Fields. Failed to Update Invoice." |}) /\
    errs !! "status" =
      Some ["Invalid enum value. Expected 'pending' | 'paid', received '" +:+ s +:+ "'"].
Proof.
  intros Hs Hnot.
  assert (Hst : Zod.field_status Actions.CreateInvoice
                  (FormData_get formData "status") =
                Zod.INVALID [ {| Zod.issue_code := Zod.invalid_enum_value;
                                 Zod.issue_path := [];
                                 Zod.issue_message :=
                                   "Invalid enum value. Expected 'pending' | 'paid', received '"
                                   +:+ s +:+ "'" |} ]).
  { rewrite Hs. simpl. unfold Zod.enum.
    by rewrite bool_decide_eq_false_2. }
  destruct (errors_of_failure prevState formData env w id) as
    (errs & Hcreate & Hupdate & _ & _ & Hstatus); [right; right; by eexists|].
  exists errs. rewrite Hst in Hstatus. done.
Qed.

Lemma unknown_status_is_reported_witness :
  exists errs,
    Actions.createInvoice no_state (form "c1" "12" "overdue") accepting_env sample_world =
      (sample_world,
       Return {| Actions.errors := Some errs;
                 Actions.message := Some "Missing Fields. Failed to Create Invoice." |}) /\
    errs !! "status" =
      Some ["Invalid enum value. Expected 'pending' | 'paid', received 'overdue'"].
Proof.
  destruct (unknown_status_is_reported no_state (form "c1" "12" "overdue") "a1"
              accepting_env sample_world "overdue") as (errs & Hcreate & _ & Hstatus).
  - reflexivity.
  - vm_compute. intros H. inversion H as [|? ? ? H']; subst.
    inversion H' as [|? ? ? H'']; subst. inversion H''.
  - by exists errs.
Defined.

(** X4. An amount that coerces to NaN is reported under [amount] with the
    default message of a type error, and not with the message of the
    [.gt(0)] check. *)
Theorem non_numeric_amount_is_reported
    (prevState : Actions.State) (formData : FormData) (id : string)
    (env : Env) (w : World) :
  Js.isNaN (Number (FormData_get formData "amount")) = true ->
  exists errs,
    Actions.createInvoice prevState formData env w =
      (w, Return {| Actions.errors := Some errs;
                    Actions.message := Some "Missing Fields. Failed to Create Invoice." |}) /\
    Actions.updateInvoice id prevState formData env w =
      (w, Return {| Actions.errors := Some errs;
                    Actions.message := Some "Missing Fields. Failed to Update Invoice." |}) /\
    errs !! "amount" = Some ["Expected number, received nan"].
Proof.
  intros Hnan.
  assert (Ha : Zod.field_amount Actions.CreateInvoice
                 (FormData_get formData "amount") =
               Zod.INVALID [ {| Zod.issue_code := Zod.invalid_type; Zod.issue_path := [];
                                Zod.issue_message := "Expected number, received nan" |} ]).
  { simpl. unfold Zod.coerce_number. by rewrite Hnan. }
  destruct (errors_of_failure prevState formData env w id) as
    (errs & Hcreate & Hupdate & _ & Hamount & _); [right; left; by eexists|].
  exists errs. rewrite Ha in Hamount. done.
Qed.

Lemma non_numeric_amount_is_reported_witness :
  exists errs,
    Actions.createInvoice no_state (form "c1" "12 dollars" "paid") accepting_env sample_world =
      (sample_world,
       Return {| Actions.errors := Some errs;
                 Actions.message := Some "Missing Fields. Failed to Create Invoice." |}) /\
    errs !! "amount" = Some ["Expected number, received nan"].
Proof.
  destruct (non_numeric_amount_is_reported no_state (form "c1" "12 dollars" "paid") "a1"
              accepting_env sample_world) as (errs & Hcreate & _ & Hamount).
  - reflexivity.
  - by exists errs.
Defined.

(** X5. Whenever the create or the update action returns [errors], a field
    that is valid has no entry in it, and there is no entry under any key
    other than the three fields: only the fields that failed are reported. *)
Theorem valid_fields_are_not_reported
    (prevState : Actions.State) (formData : FormData) (id : string)
    (env : Env) (w w' : World) (st : Actions.State)
    (errs : gmap string (list string)) :
  Actions.createInvoice prevState formData env w = (w', Return st) \/
  Actions.updateInvoice id prevState formData env w = (w', Return st) ->
  Actions.errors st = Some errs ->
  ((exists c, FormData_get formData "customerId" = Some (FormString c)) ->
   errs !! "customerId" = None) /\
  (Js.gt (Number (FormData_get formData "amount")) (Js.of_Z 0) = true ->
   errs !! "amount" = None) /\
  ((exists s, FormData_get formData "status" = Some (FormString s) /\
              s ∈ ["pending"; "paid"]) ->
   errs !! "status" = None) /\
  (forall key, is_Some (errs !! key) -> key ∈ ["customerId"; "amount"; "status"]).
Proof.
  intros Hrun Herrs.
  assert (Hfail : exists error,
    Zod.safeParse Actions.CreateInvoice (form_fields formData) = Zod.SafeParseError error /\
    errs = Zod.fieldErrors error).
  { destruct Hrun as [Hrun | Hrun];
      [rewrite createInvoice_run in Hrun | rewrite updateInvoice_run in Hrun];
      change Actions.UpdateInvoice with Actions.CreateInvoice in Hrun;
      destruct (Zod.safeParse _ _) as [data|error].
    - destruct (sql_rejects _ _ _); by simplify_eq/=.
    - simplify_eq/=. by eexists.
    - destruct (sql_rejects _ _ _); by simplify_eq/=.
    - simplify_eq/=. by eexists. }
  destruct Hfail as (error & Herror & ->).
  rewrite (safeParse_error _ _ _ Herror).
  split; [|split; [|split]].
  - intros [c Hc]. rewrite fieldErrors_customerId. simpl. by rewrite Hc.
  - intros Hgt. rewrite fieldErrors_amount.
    pose proof (proj2 (amount_ok _ _) (conj eq_refl Hgt)) as Ha.
    simpl in Ha |- *. by rewrite Ha.
  - intros (s & Hs & Hin). rewrite fieldErrors_status. simpl. rewrite Hs.
    unfold Zod.enum. by rewrite bool_decide_eq_true_2.
  - intros key [msgs Hmsgs]. by eapply fieldErrors_keys.
Qed.

Lemma valid_fields_are_not_reported_witness :
  exists errs : gmap string (list string),
    errs !! "customerId" = None /\ errs !! "amount" = None /\ is_Some (errs !! "status").
Proof.
  assert (Hrun : Actions.createInvoice no_state (form "" "12" "overdue")
                   accepting_env sample_world =
                 (sample_world,
                  Return {| Actions.errors :=
                              Some {[ "status" :=
                                ["Invalid enum value. Expected 'pending' | 'paid', received 'overdue'"] ]};
                            Actions.message :=
                              Some "Missing Fields. Failed to Create Invoice." |}))
    by (vm_compute; reflexivity).
  destruct (valid_fields_are_not_reported no_state (form "" "12" "overdue") "a1"
              accepting_env sample_world sample_world _ _ (or_introl Hrun) eq_refl)
    as (Hcust & Hamount & _ & _).
  eexists. split; [apply Hcust; by eexists|].
  split; [apply Hamount; reflexivity|]. vm_compute. by eexists.
Defined.

(** ** Amounts that are never accepted *)

Lemma trim_start_blank l :
  forallb Js.is_white_space l = true -> Js.trim_start l = [].
Proof.
  induction l as [|c l IH]; simpl; [done|].
  intros [Hc Hl]%andb_true_iff. rewrite Hc. auto.
Qed.

Lemma StringToNumber_blank s :
  forallb Js.is_white_space (list_ascii_of_string s) = true ->
  Js.StringToNumber s = Js.pos_zero.
Proof.
  intros Hblank. unfold Js.StringToNumber, Js.trim.
  by rewrite (trim_start_blank _ Hblank).
Qed.

(** X6. An amount made of white space only reads as 0, like an empty one,
    and both actions answer with the message of the [.gt(0)] check. *)
Theorem blank_amount_reads_as_zero
    (prevState : Actions.State) (formData : FormData) (id : string)
    (env : Env) (w : World) (s : string) :
  FormData_get formData "amount" = Some (FormString s) ->
  forallb Js.is_white_space (list_ascii_of_string s) = true ->
  Number (FormData_get formData "amount") = Js.pos_zero /\
  exists errs,
    Actions.createInvoice prevState formData env w =
      (w, Return {| Actions.errors := Some errs;
                    Actions.message := Some "Missing Fields. Failed to Create Invoice." |}) /\
    Actions.updateInvoice id prevState formData env w =
      (w, Return {| Actions.errors := Some errs;
                    Actions.message := Some "Missing Fields. Failed to Update Invoice." |}) /\
    errs !! "amount" = Some ["Please enter an amount greater than $0."].
Proof.
  intros Hs Hblank.
  assert (Hzero : Number (FormData_get formData "amount") = Js.pos_zero)
    by (rewrite Hs; simpl; by apply StringToNumber_blank).
  split; [exact Hzero|].
  assert (Hle : Js.le (Number (FormData_get formData "amount")) (Js.of_Z 0) = true)
    by (by rewrite Hzero).
  destruct (errors_of_failure prevState formData env w id) as
    (errs & Hcreate & Hupdate & _ & Hamount & _).
  { right; left. eexists. exact (amount_not_positive _ Hle). }
  exists errs.
  change (Zod.field_amount Actions.CreateInvoice) with
    (Zod.shape_amount Actions.FormSchema) in Hamount.
  rewrite (amount_not_positive _ Hle) in Hamount. done.
Qed.

Lemma blank_amount_reads_as_zero_witness :
  Number (FormData_get (form "c1" "   " "paid") "amount") = Js.pos_zero.
Proof.
  apply (blank_amount_reads_as_zero no_state (form "c1" "   " "paid") "a1"
           accepting_env sample_world "   "); reflexivity.
Defined.

Lemma binary_round_aux_sign sx mx ex lx :
  has_sign sx (binary_round_aux Js.prec Js.emax sx mx ex lx).
Proof.
  unfold binary_round_aux.
  destruct (shr_fexp _ _ _ _ _) as [mrs' e'].
  destruct (shr_fexp _ _ _ _ _) as [mrs'' e''].
  destruct (shr_m mrs''); simpl; [done| |done]. by case_match.
Qed.

Lemma of_decimal_sign sx m e : has_sign sx (Js.of_decimal sx m e).
Proof.
  unfold Js.of_decimal. destruct m as [|p|p]; simpl; [done| |done].
  case_match.
  - unfold binary_round. destruct (shl_align _ _ _). apply binary_round_aux_sign.
  - destruct (SFdiv_core_binary _ _ _ _ _ _) as [[q e'] l].
    apply binary_round_aux_sign.
Qed.

Lemma unsigned_decimal_sign sx l : has_sign sx (Js.unsigned_decimal sx l).
Proof.
  unfold Js.unsigned_decimal. case_bool_decide; [done|].
  destruct (Js.read_digits 10 l 0 0) as [[i ni] r1].
  destruct (match r1 with [] => _ | _ => _ end) as [[m nf] r2].
  case_match; [done|].
  destruct (Js.read_exponent r2) as [[e [|]]|]; try done.
  apply of_decimal_sign.
Qed.

(** A number with the sign of a negative is NaN or at most zero. *)
Lemma negative_sign_not_positive x :
  has_sign true x -> Js.isNaN x = true \/ Js.le x (Js.of_Z 0) = true.
Proof. destruct x as [s|s| |s m e]; simpl; intros Hs; subst; auto. Qed.

(** X7. An amount whose text, white space aside, starts with a minus sign
    is never accepted: whatever follows the sign, both actions return
    [errors] with an entry for [amount] and write nothing. *)
Theorem minus_sign_is_rejected
    (prevState : Actions.State) (formData : FormData) (id : string)
    (env : Env) (w : World) (s : string) (rest : list ascii) :
  FormData_get formData "amount" = Some (FormString s) ->
  Js.trim (list_ascii_of_string s) = "-"%char :: rest ->
  exists errs,
    Actions.createInvoice prevState formData env w =
      (w, Return {| Actions.errors := Some errs;
                    Actions.message := Some "Missing Fields. Failed to Create Invoice." |}) /\
    Actions.updateInvoice id prevState formData env w =
      (w, Return {| Actions.errors := Some errs;
                    Actions.message := Some "Missing Fields. Failed to Update Invoice." |}) /\
    is_Some (errs !! "amount").
Proof.
  intros Hs Htrim.
  assert (Hsign : has_sign true (Number (FormData_get formData "amount"))).
  { rewrite Hs. simpl. unfold Js.StringToNumber. rewrite Htrim. simpl.
    apply unsigned_decimal_sign. }
  assert (Ha : exists l,
    Zod.field_amount Actions.CreateInvoice (FormData_get formData "amount")
      = Zod.INVALID l /\ l <> []).
  { destruct (negative_sign_not_positive _ Hsign) as [Hnan | Hle].
    - simpl. unfold Zod.coerce_number. rewrite Hnan. by eexists.
    - eexists. split; [exact (amount_not_positive _ Hle)|done]. }
  destruct Ha as (l & Ha & Hl).
  destruct (errors_of_failure prevState formData env w id) as
    (errs & Hcreate & Hupdate & _ & Hamount & _); [right; left; by eexists|].
  exists errs. rewrite Ha in Hamount. simpl in Hamount.
  destruct l; [done|]. rewrite Hamount. by eexists.
Qed.

Lemma minus_sign_is_rejected_witness :
  exists errs,
    Actions.createInvoice no_state (form "c1" " -0.01" "paid") accepting_env sample_world =
      (sample_world,
       Return {| Actions.errors := Some errs;
                 Actions.message := Some "Missing Fields. Failed to Create Invoice." |}) /\
    is_Some (errs !! "amount").
Proof.
  destruct (minus_sign_is_rejected no_state (form "c1" " -0.01" "paid") "a1"
              accepting_env sample_world " -0.01" (list_ascii_of_string "0.01"))
    as (errs & Hcreate & _ & Hamount); [reflexivity | reflexivity |].
  by exists errs.
Defined.

(** ** How the actions end *)

(** X8. The create and the update action end in one of two ways. Either
    they return a state, which always has a message, and then the table is
    as it was and no revalidation was added; or they throw, and then what
    they throw is the redirect to the listing, after exactly one statement
    followed by one revalidation of the listing. *)
Theorem create_and_update_outcomes
    (prevState : Actions.State) (formData : FormData) (id : string)
    (env : Env) (w : World) :
  match Actions.createInvoice prevState formData env w with
  | (w', Return st) =>
      invoices w' = invoices w /\ is_Some (Actions.message st) /\
      forall path, RevalidatePath path ∉ added_effects w w'
  | (w', Throw e) =>
      e = NEXT_REDIRECT "/dashboard/invoices" /\
      exists q, added_effects w w' =
                  [SqlStatement q; RevalidatePath "/dashboard/invoices"]
  end /\
  match Actions.updateInvoice id prevState formData env w with
  | (w', Return st) =>
      invoices w' = invoices w /\ is_Some (Actions.message st) /\
      forall path, RevalidatePath path ∉ added_effects w w'
  | (w', Throw e) =>
      e = NEXT_REDIRECT "/dashboard/invoices" /\
      exists q, added_effects w w' =
                  [SqlStatement q; RevalidatePath "/dashboard/invoices"]
  end.
Proof.
  rewrite createInvoice_run, updateInvoice_run.
  change Actions.UpdateInvoice with Actions.CreateInvoice.
  unfold added_effects.
  destruct (Zod.safeParse _ _) as [data|error]; split;
    try destruct (sql_rejects _ _ _); simpl;
    rewrite ?drop_app_length, ?drop_all;
    repeat split; eauto;
    intros path; rewrite ?list_elem_of_singleton;
    first [done | apply not_elem_of_nil].
Qed.

(** X9. The delete action never throws: whatever the database does, it
    returns a state with a message and without [errors], after sending
    exactly one statement, and the rows it leaves are rows that were there. *)
Theorem delete_always_returns (id : string) (env : Env) (w : World) :
  exists w' st,
    Actions.deleteInvoice id env w = (w', Return st) /\
    Actions.errors st = None /\ is_Some (Actions.message st) /\
    (exists rest, added_effects w w' =
                    SqlStatement (Sql.DELETE_FROM_invoices id) :: rest /\
                  forall q, SqlStatement q ∉ rest) /\
    invoices w' `sublist_of` invoices w.
Proof.
  rewrite deleteInvoice_run. unfold added_effects.
  destruct (sql_rejects _ _ _); eexists _, _; (split; [reflexivity|]); simpl;
    rewrite drop_app_length; repeat split; eauto.
  - eexists. split; [reflexivity|]. intros q. apply not_elem_of_nil.
  - eexists. split; [reflexivity|]. intros q. by rewrite list_elem_of_singleton.
  - apply sublist_filter.
Qed.

(** ** Identifiers that match no row *)

Section Tables.

Lemma update_no_match c a s i rows new_id :
  i ∉ (Sql.id <$> rows) ->
  Sql.execute new_id (Sql.UPDATE_invoices c a s i) rows = rows.
Proof.
  intros Hnot. simpl. rewrite <- (list_fmap_id rows) at 2.
  apply list_fmap_ext. intros k r Hr.
  rewrite bool_decide_eq_false_2; [done|].
  intros <-. apply Hnot. apply list_elem_of_fmap_2.
  by eapply list_elem_of_lookup_2.
Qed.

Lemma delete_no_match i (rows : list Sql.Invoice) :
  i ∉ (Sql.id <$> rows) -> filter (fun r => Sql.id r <> i) rows = rows.
Proof.
  intros Hnot. induction rows as [|r rows IH]; [done|].
  rewrite filter_cons. rewrite decide_True.
  - f_equal. apply IH. intros Hin. apply Hnot. by right.
  - intros Heq. apply Hnot. rewrite <- Heq. by left.
Qed.

Lemma delete_removes i (rows : list Sql.Invoice) :
  i ∉ (Sql.id <$> filter (fun r => Sql.id r <> i) rows).
Proof.
  intros (r & -> & Hr)%list_elem_of_fmap_1.
  apply list_elem_of_filter in Hr. by destruct Hr.
Qed.

Lemma update_keeps_ids c a s i rows new_id :
  Sql.id <$> Sql.execute new_id (Sql.UPDATE_invoices c a s i) rows = Sql.id <$> rows.
Proof.
  simpl. rewrite <- list_fmap_compose. apply list_fmap_ext.
  intros k r _. simpl. by case_bool_decide.
Qed.

Lemma update_update c1 a1 s1 c2 a2 s2 i rows n1 n2 n3 :
  Sql.execute n2 (Sql.UPDATE_invoices c2 a2 s2 i)
    (Sql.execute n1 (Sql.UPDATE_invoices c1 a1 s1 i) rows) =
  Sql.execute n3 (Sql.UPDATE_invoices c2 a2 s2 i) rows.
Proof.
  simpl. rewrite <- list_fmap_compose. apply list_fmap_ext.
  intros k r _. simpl. repeat case_bool_decide; simpl in *; congruence.
Qed.

End Tables.

(** X10. An update whose identifier matches no row writes nothing and is
    not told apart from one that does: with valid data and a statement that
    completes, the table is the same, the listing is revalidated and the
    action leaves by the redirect. *)
Theorem update_of_unknown_id
    (id : string) (prevState : Actions.State) (formData : FormData)
    (env : Env) (w : World) (data : Zod.InvoiceFields) :
  Zod.safeParse Actions.UpdateInvoice (form_fields formData)
    = Zod.SafeParseSuccess data ->
  sql_rejects env (update_of id data) (invoices w) = None ->
  id ∉ ids w ->
  Actions.updateInvoice id prevState formData env w =
    ({| invoices := invoices w;
        effects := effects w ++
          [SqlStatement (update_of id data); RevalidatePath "/dashboard/invoices"] |},
     Throw (NEXT_REDIRECT "/dashboard/invoices")).
Proof.
  intros Hvalid Haccepts Hnot.
  rewrite updateInvoice_run, Hvalid, Haccepts.
  unfold update_of. by rewrite update_no_match.
Qed.

Lemma update_of_unknown_id_witness :
  invoices (fst (Actions.updateInvoice "zz" no_state (form "c1" "45.50" "pending")
                   accepting_env sample_world)) = sample_invoices /\
  snd (Actions.updateInvoice "zz" no_state (form "c1" "45.50" "pending")
         accepting_env sample_world) = Throw (NEXT_REDIRECT "/dashboard/invoices").
Proof.
  rewrite (update_of_unknown_id "zz" no_state (form "c1" "45.50" "pending")
             accepting_env sample_world sample_data).
  - split; reflexivity.
  - vm_compute. reflexivity.
  - reflexivity.
  - vm_compute. intros H. inversion H as [|? ? ? H']; subst.
    inversion H' as [|? ? ? H'']; subst. inversion H''.
Defined.

(** X11. A delete whose identifier matches no row, when the statement
    completes, leaves the table as it was and still reports success. *)
Theorem delete_of_unknown_id (id : string) (env : Env) (w : World) :
  sql_rejects env (Sql.DELETE_FROM_invoices id) (invoices w) = None ->
  id ∉ ids w ->
  Actions.deleteInvoice id env w =
    ({| invoices := invoices w;
        effects := effects w ++
          [SqlStatement (Sql.DELETE_FROM_invoices id);
           RevalidatePath "/dashboard/invoices"] |},
     Return {| Actions.errors := None;
               Actions.message := Some "Deleted Invoice." |}).
Proof.
  intros Haccepts Hnot. rewrite deleteInvoice_run, Haccepts.
  by rewrite delete_no_match.
Qed.

Lemma delete_of_unknown_id_witness :
  invoices (fst (Actions.deleteInvoice "zz" accepting_env sample_world)) = sample_invoices /\
  snd (Actions.deleteInvoice "zz" accepting_env sample_world) =
    Return {| Actions.errors := None; Actions.message := Some "Deleted Invoice." |}.
Proof.
  rewrite (delete_of_unknown_id "zz" accepting_env sample_world).
  - split; reflexivity.
  - reflexivity.
  - vm_compute. intros H. inversion H as [|? ? ? H']; subst.
    inversion H' as [|? ? ? H'']; subst. inversion H''.
Defined.

(** ** Actions in sequence *)

(** X12. Deleting twice is deleting once: when the database accepts the
    DELETE, a second delete of the same identifier finds no row, leaves
    the table as the first one left it and reports success again. *)
Theorem delete_twice (id : string) (env : Env) (w : World) :
  (forall rows, sql_rejects env (Sql.DELETE_FROM_invoices id) rows = None) ->
  let w1 := fst (Actions.deleteInvoice id env w) in
  (id ∉ ids w1) /\
  invoices (fst (Actions.deleteInvoice id env w1)) = invoices w1 /\
  snd (Actions.deleteInvoice id env w1) =
    Return {| Actions.errors := None; Actions.message := Some "Deleted Invoice." |}.
Proof.
  intros Haccepts w1.
  assert (Hgone : id ∉ ids w1).
  { subst w1. rewrite deleteInvoice_run, Haccepts. apply delete_removes. }
  split; [exact Hgone|].
  rewrite (deleteInvoice_run env w1), Haccepts. simpl.
  by rewrite delete_no_match.
Qed.

Lemma delete_twice_witness :
  invoices (fst (Actions.deleteInvoice "a1" accepting_env
                   (fst (Actions.deleteInvoice "a1" accepting_env sample_world)))) =
  invoices (fst (Actions.deleteInvoice "a1" accepting_env sample_world)).
Proof.
  apply (delete_twice "a1" accepting_env sample_world). reflexivity.
Defined.

(** X13. The last update wins: after two updates of the same identifier
    with valid data, both accepted by the database, the table is the one
    that the second update alone gives. *)
Theorem last_update_wins
    (id : string) (prevState : Actions.State) (first second : FormData)
    (env : Env) (w : World) (data1 data2 : Zod.InvoiceFields) :
  Zod.safeParse Actions.UpdateInvoice (form_fields first)
    = Zod.SafeParseSuccess data1 ->
  Zod.safeParse Actions.UpdateInvoice (form_fields second)
    = Zod.SafeParseSuccess data2 ->
  (forall rows, sql_rejects env (update_of id data1) rows = None) ->
  (forall rows, sql_rejects env (update_of id data2) rows = None) ->
  let w1 := fst (Actions.updateInvoice id prevState first env w) in
  invoices (fst (Actions.updateInvoice id prevState second env w1)) =
  invoices (fst (Actions.updateInvoice id prevState second env w)).
Proof.
  intros Hfirst Hsecond Haccepts1 Haccepts2 w1. subst w1.
  rewrite !updateInvoice_run, Hfirst, Hsecond, Haccepts1, !Haccepts2.
  cbn [fst invoices]. unfold update_of. apply update_update.
Qed.

Lemma last_update_wins_witness :
  invoices (fst (Actions.updateInvoice "a1" no_state (form "c2" "7" "paid") accepting_env
                   (fst (Actions.updateInvoice "a1" no_state (form "c1" "45.50" "pending")
                           accepting_env sample_world)))) =
  invoices (fst (Actions.updateInvoice "a1" no_state (form "c2" "7" "paid")
                   accepting_env sample_world)).
Proof.
  apply (last_update_wins "a1" no_state (form "c1" "45.50" "pending")
           (form "c2" "7" "paid") accepting_env sample_world sample_data
           {| Zod.customerId := "c2"; Zod.amount := Js.StringToNumber "7";
              Zod.status := "paid" |});
    first [reflexivity | vm_compute; reflexivity].
Defined.

(** X14. Creating an invoice and then deleting the identifier that the
    database generated for it gives the table back, provided that no row
    had that identifier before; both statements are taken to complete. *)
Theorem create_then_delete
    (prevState : Actions.State) (formData : FormData) (env : Env) (w : World)
    (data : Zod.InvoiceFields) :
  Zod.safeParse Actions.CreateInvoice (form_fields formData)
    = Zod.SafeParseSuccess data ->
  sql_rejects env (insert_of env data) (invoices w) = None ->
  generated_id env (invoices w) ∉ ids w ->
  (forall rows,
     sql_rejects env (Sql.DELETE_FROM_invoices (generated_id env (invoices w))) rows
       = None) ->
  let w1 := fst (Actions.createInvoice prevState formData env w) in
  invoices (fst (Actions.deleteInvoice (generated_id env (invoices w)) env w1)) =
  invoices w.
Proof.
  intros Hvalid Haccepts Hfresh Hdelete w1. subst w1.
  rewrite deleteInvoice_run, Hdelete, createInvoice_run, Hvalid, Haccepts. simpl.
  rewrite filter_app, delete_no_match by exact Hfresh.
  rewrite filter_cons, decide_False by (simpl; tauto).
  rewrite filter_nil. apply app_nil_r.
Qed.

Lemma create_then_delete_witness :
  invoices (fst (Actions.deleteInvoice "7f3a" accepting_env
                   (fst (Actions.createInvoice no_state (form "c1" "45.50" "pending")
                           accepting_env sample_world)))) = sample_invoices.
Proof.
  apply (create_then_delete no_state (form "c1" "45.50" "pending") accepting_env
           sample_world sample_data).
  - vm_compute. reflexivity.
  - reflexivity.
  - vm_compute. intros H. inversion H as [|? ? ? H']; subst.
    inversion H' as [|? ? ? H'']; subst. inversion H''.
  - reflexivity.
Defined.

(** X15. The identifiers of the table: an update never changes their list,
    whatever its outcome; a delete only removes from it; and when the
    identifiers are pairwise distinct they stay so after an update, after
    a delete, and after a create whose generated identifier is new. *)
Theorem identifiers_are_kept
    (prevState : Actions.State) (formData : FormData) (id : string)
    (env : Env) (w : World) :
  ids (fst (Actions.updateInvoice id prevState formData env w)) = ids w /\
  ids (fst (Actions.deleteInvoice id env w)) `sublist_of` ids w /\
  (NoDup (ids w) ->
   NoDup (ids (fst (Actions.deleteInvoice id env w))) /\
   (generated_id env (invoices w) ∉ ids w ->
    NoDup (ids (fst (Actions.createInvoice prevState formData env w))))).
Proof.
  assert (Hdelete : ids (fst (Actions.deleteInvoice id env w)) `sublist_of` ids w).
  { rewrite deleteInvoice_run. unfold ids.
    destruct (sql_rejects _ _ _); simpl; [done|].
    apply fmap_sublist, sublist_filter. }
  split; [|split; [exact Hdelete|]].
  - rewrite updateInvoice_run. unfold ids.
    destruct (Zod.safeParse _ _) as [data|error]; [|done].
    destruct (sql_rejects _ _ _); simpl; [done|].
    apply (update_keeps_ids _ _ _ _ _ (generated_id env (invoices w))).
  - intros Hnodup. split; [by eapply sublist_NoDup|].
    intros Hfresh. rewrite createInvoice_run. unfold ids in *.
    destruct (Zod.safeParse _ _) as [data|error]; [|done].
    destruct (sql_rejects _ _ _); simpl; [done|].
    rewrite fmap_app. apply NoDup_app. split; [done|]. split.
    + intros x Hx. simpl. rewrite list_elem_of_singleton. by intros ->.
    + apply NoDup_singleton.
Qed.

Lemma identifiers_are_kept_witness :
  NoDup (ids (fst (Actions.createInvoice no_state (form "c1" "45.50" "pending")
                     accepting_env sample_world))).
Proof.
  apply (identifiers_are_kept no_state (form "c1" "45.50" "pending") "a1"
           accepting_env sample_world).
  - apply (bool_decide_unpack _). vm_compute. exact I.
  - apply (bool_decide_unpack _). vm_compute. exact I.
Defined.

(** ** The edit pages *)

Section Pages.

Context {InvoiceForm CustomerField : Type}.
Variable fetchInvoiceById : string -> Async (option InvoiceForm).
Variable fetchCustomers : Async (list CustomerField).
Variables (id : string) (env : Env) (w : World).

(** X16. The page returns a view exactly when the invoice query resolves
    to an invoice and the customer query resolves; the view is then the
    one with the breadcrumbs of that identifier and the form filled with
    that invoice and those customers. *)
Theorem Page_renders_exactly_when_found (element : Element) :
  snd (Page fetchInvoiceById fetchCustomers id env w) = Return element <->
  exists invoice customers,
    snd (fetchInvoiceById id env w) = Return (Some invoice) /\
    snd (fetchCustomers env (fst (fetchInvoiceById id env w))) = Return customers /\
    element = edit_view id (Some invoice) customers.
Proof.
  unfold Page, mbind, async_bind, Promise_all.
  destruct (fetchInvoiceById id env w) as [w1 r1]. simpl.
  destruct (fetchCustomers env w1) as [w2 r2]. simpl.
  destruct r1 as [[invoice|]|e1], r2 as [customers|e2]; simpl; split;
    try (intros [= <-]; by eexists _, _);
    try (intros (i & c & Hi & Hc & He); by simplify_eq);
    try done.
Qed.

(** X17. Both queries are always run, and a rejection of either fails the
    page as a whole: the page then throws a rejection of one of the two
    queries and returns no view, also when the invoice exists. *)
Theorem Page_fails_fast (e : JsError) :
  snd (fetchInvoiceById id env w) = Throw e \/
  snd (fetchCustomers env (fst (fetchInvoiceById id env w))) = Throw e ->
  fst (Page fetchInvoiceById fetchCustomers id env w) =
    fst (fetchCustomers env (fst (fetchInvoiceById id env w))) /\
  exists e',
    snd (Page fetchInvoiceById fetchCustomers id env w) = Throw e' /\
    (snd (fetchInvoiceById id env w) = Throw e' \/
     snd (fetchCustomers env (fst (fetchInvoiceById id env w))) = Throw e').
Proof.
  unfold Page, mbind, async_bind, Promise_all.
  destruct (fetchInvoiceById id env w) as [w1 r1]. simpl.
  destruct (fetchCustomers env w1) as [w2 r2]. simpl.
  destruct r1 as [[invoice|]|e1], r2 as [customers|e2]; simpl;
    intros [[=] | [=]]; subst; (split; [done|]);
    try (eexists; split; [reflexivity|]; by auto).
  all: destruct (left_rejects_first env); eexists; split; try reflexivity; auto.
Qed.

(** X18. The page without the check and the page with it do the same on
    every request, except the one whose invoice query resolves to no
    invoice while the customer query resolves: there the first renders
    the form without an invoice and the second leaves by [notFound]. *)
Theorem pages_differ_only_on_missing_invoice :
  match fetchInvoiceById id env w with
  | (w1, Return None) =>
      match fetchCustomers env w1 with
      | (w2, Return customers) =>
          UncheckedPage fetchInvoiceById fetchCustomers id env w =
            (w2, Return (edit_view id None customers)) /\
          Page fetchInvoiceById fetchCustomers id env w = (w2, Throw NEXT_NOT_FOUND)
      | (w2, Throw _) =>
          UncheckedPage fetchInvoiceById fetchCustomers id env w =
          Page fetchInvoiceById fetchCustomers id env w
      end
  | _ =>
      UncheckedPage fetchInvoiceById fetchCustomers id env w =
      Page fetchInvoiceById fetchCustomers id env w
  end.
Proof.
  unfold UncheckedPage, Page, mbind, async_bind, Promise_all.
  destruct (fetchInvoiceById id env w) as [w1 [[invoice|]|e1]];
    destruct (fetchCustomers env w1) as [w2 [customers|e2]]; simpl; done.
Qed.

End Pages.

Lemma Page_fails_fast_witness :
  snd (Page find_invoice customers_unavailable "a1" accepting_env sample_world) =
    Throw (Error "Failed to fetch all customers.").
Proof.
  destruct (Page_fails_fast find_invoice customers_unavailable "a1" accepting_env
              sample_world (Error "Failed to fetch all customers."))
    as (_ & e' & Hthrow & [Hleft | Hright]).
  - right. reflexivity.
  - discriminate Hleft.
  - rewrite Hthrow. injection Hright as ->. reflexivity.
Defined.

(** The data of a success, field by field. *)
Lemma safeParse_is_total_fields raw :
  match Zod.safeParse Actions.CreateInvoice raw with
  | Zod.SafeParseSuccess data =>
      Zod.raw_customerId raw = Some (FormString (Zod.customerId data)) /\
      Zod.amount data = Number (Zod.raw_amount raw) /\
      Js.gt (Zod.amount data) (Js.of_Z 0) = true /\
      Zod.raw_status raw = Some (FormString (Zod.status data)) /\
      Zod.status data ∈ ["pending"; "paid"]
  | Zod.SafeParseError _ => True
  end.
Proof.
  unfold Zod.safeParse.
  destruct (Zod.field_customerId _ _) as [c|ci] eqn:Hc; [|exact I].
  destruct (Zod.field_amount _ _) as [a|ai] eqn:Ha; [|exact I].
  destruct (Zod.field_status _ _) as [s|si] eqn:Hs; [|exact I].
  apply customerId_ok in Hc. apply amount_ok in Ha as [-> Hgt].
  apply status_ok in Hs as [-> Hin]. done.
Qed.

(** ** The actions that use [parse], case by case *)

Section ParseRuns.

Variables (formData : FormData) (env : Env) (w : World).

Lemma parse_createInvoice_run :
  ParseActions.createInvoice formData env w =
  match Zod.safeParse ParseActions.CreateInvoice (form_fields formData) with
  | Zod.SafeParseError error => (w, Throw (ZodError error))
  | Zod.SafeParseSuccess data =>
      match sql_rejects env (insert_of env data) (invoices w) with
      | Some e => (perform (SqlStatement (insert_of env data)) w, Throw e)
      | None =>
          ({| invoices :=
                Sql.execute (generated_id env (invoices w)) (insert_of env data)
                  (invoices w);
              effects := effects w ++
                [SqlStatement (insert_of env data);
                 RevalidatePath "/dashboard/invoices"] |},
           Throw (NEXT_REDIRECT "/dashboard/invoices"))
      end
  end.
Proof.
  unfold ParseActions.createInvoice, mbind, async_bind.
  rewrite parse_throws. fold (form_fields formData).
  destruct (Zod.safeParse _ _) as [data|error]; [|done].
  unfold new_Date_toISOString, sql. simpl.
  rewrite split_toISOString. fold (insert_of env data).
  destruct (sql_rejects _ _ _); [done|].
  unfold perform. simpl. by rewrite <- app_assoc.
Qed.

Lemma parse_updateInvoice_run id :
  ParseActions.updateInvoice id formData env w =
  match Zod.safeParse ParseActions.UpdateInvoice (form_fields formData) with
  | Zod.SafeParseError error => (w, Throw (ZodError error))
  | Zod.SafeParseSuccess data =>
      match sql_rejects env (update_of id data) (invoices w) with
      | Some e => (perform (SqlStatement (update_of id data)) w, Throw e)
      | None =>
          ({| invoices :=
                Sql.execute (generated_id env (invoices w)) (update_of id data)
                  (invoices w);
              effects := effects w ++
                [SqlStatement (update_of id data);
                 RevalidatePath "/dashboard/invoices"] |},
           Throw (NEXT_REDIRECT "/dashboard/invoices"))
      end
  end.
Proof.
  unfold ParseActions.updateInvoice, mbind, async_bind.
  rewrite parse_throws. fold (form_fields formData).
  destruct (Zod.safeParse _ _) as [data|error]; [|done].
  unfold sql. simpl. fold (update_of id data).
  destruct (sql_rejects _ _ _); [done|].
  unfold perform. simpl. by rewrite <- app_assoc.
Qed.

(** Their schema accepts a string customer, an amount that is a number,
    and one of the two statuses. *)
Lemma parse_schema_accepts c s :
  FormData_get formData "customerId" = Some (FormString c) ->
  Js.isNaN (Number (FormData_get formData "amount")) = false ->
  FormData_get formData "status" = Some (FormString s) ->
  s ∈ ["pending"; "paid"] ->
  Zod.safeParse ParseActions.CreateInvoice (form_fields formData) =
    Zod.SafeParseSuccess
      {| Zod.customerId := c;
         Zod.amount := Number (FormData_get formData "amount");
         Zod.status := s |}.
Proof.
  intros Hc Ha Hs Hin. unfold Zod.safeParse. simpl.
  rewrite Hc, Hs. simpl. unfold Zod.coerce_number, Zod.enum.
  rewrite Ha. simpl. by rewrite bool_decide_eq_true_2.
Qed.

(** What the schema with the checks accepts, theirs accepts, with the same
    data. *)
Lemma parse_schema_is_weaker data :
  Zod.safeParse Actions.CreateInvoice (form_fields formData)
    = Zod.SafeParseSuccess data ->
  Zod.safeParse ParseActions.CreateInvoice (form_fields formData)
    = Zod.SafeParseSuccess data.
Proof.
  intros Hvalid.
  pose proof (safeParse_is_total_fields (form_fields formData)) as Htyped.
  rewrite Hvalid in Htyped. destruct Htyped as (Hc & Ha & Hgt & Hs & Hin).
  destruct data as [c a s]. simpl in *. subst a.
  apply parse_schema_accepts; try done.
  by destruct (Number (FormData_get formData "amount")).
Qed.

End ParseRuns.

(** X19. The actions that use [parse] put no bound on the amount: with a
    string customer, an allowed status and an amount that is any number,
    negative, zero or infinite alike, a create whose INSERT completes adds
    the row with that amount times 100, and an update whose UPDATE
    completes overwrites with it; both then leave by the redirect. *)
Theorem parse_actions_accept_any_number
    (formData : FormData) (id : string) (env : Env) (w : World) (c s : string) :
  FormData_get formData "customerId" = Some (FormString c) ->
  Js.isNaN (Number (FormData_get formData "amount")) = false ->
  FormData_get formData "status" = Some (FormString s) ->
  s ∈ ["pending"; "paid"] ->
  let cents := Js.mul (Number (FormData_get formData "amount")) (Js.of_Z 100) in
  let date := Date.date_string (now env) in
  (sql_rejects env (Sql.INSERT_INTO_invoices c cents s date) (invoices w) = None ->
   ParseActions.createInvoice formData env w =
     ({| invoices := invoices w ++
           [ {| Sql.id := generated_id env (invoices w); Sql.customer_id := c;
                Sql.amount := cents; Sql.status := s; Sql.date := date |} ];
         effects := effects w ++
           [SqlStatement (Sql.INSERT_INTO_invoices c cents s date);
            RevalidatePath "/dashboard/invoices"] |},
      Throw (NEXT_REDIRECT "/dashboard/invoices"))) /\
  (sql_rejects env (Sql.UPDATE_invoices c cents s id) (invoices w) = None ->
   ParseActions.updateInvoice id formData env w =
     ({| invoices :=
           Sql.execute (generated_id env (invoices w))
             (Sql.UPDATE_invoices c cents s id) (invoices w);
         effects := effects w ++
           [SqlStatement (Sql.UPDATE_invoices c cents s id);
            RevalidatePath "/dashboard/invoices"] |},
      Throw (NEXT_REDIRECT "/dashboard/invoices"))).
Proof.
  intros Hc Ha Hs Hin cents date.
  pose proof (parse_schema_accepts formData c s Hc Ha Hs Hin) as Hvalid.
  subst cents date. split; intros Haccepts.
  - rewrite parse_createInvoice_run, Hvalid. unfold insert_of.
    cbn [Zod.customerId Zod.amount Zod.status]. by rewrite Haccepts.
  - rewrite parse_updateInvoice_run.
    change ParseActions.UpdateInvoice with ParseActions.CreateInvoice.
    rewrite Hvalid. unfold update_of.
    cbn [Zod.customerId Zod.amount Zod.status]. by rewrite Haccepts.
Qed.

Lemma parse_actions_accept_any_number_witness :
  invoices (fst (ParseActions.createInvoice (form "c1" "-5" "paid")
                   accepting_env sample_world)) =
    sample_invoices ++
      [ {| Sql.id := "7f3a"; Sql.customer_id := "c1"; Sql.amount := Js.of_Z (-500);
           Sql.status := "paid"; Sql.date := "2026-11-02" |} ].
Proof.
  assert (Hin : "paid" ∈ ["pending"; "paid"])
    by (apply list_elem_of_In; right; left; reflexivity).
  destruct (parse_actions_accept_any_number (form "c1" "-5" "paid") "a1"
              accepting_env sample_world "c1" "paid" eq_refl eq_refl eq_refl Hin)
    as [Hcreate _].
  rewrite Hcreate by reflexivity. vm_compute. reflexivity.
Defined.

(** X20. On input that their schema refuses (a customer or a status that
    is not a string, an amount that is not a number, a status outside the
    two allowed) the actions that use [parse] throw the validation error,
    with at least one issue, and do nothing else. *)
Theorem parse_actions_throw_on_invalid_input
    (formData : FormData) (id : string) (env : Env) (w : World) :
  (forall c, FormData_get formData "customerId" <> Some (FormString c)) \/
  Js.isNaN (Number (FormData_get formData "amount")) = true \/
  (forall s, FormData_get formData "status" = Some (FormString s) ->
             s ∉ ["pending"; "paid"]) ->
  exists issues,
    issues <> [] /\
    ParseActions.createInvoice formData env w = (w, Throw (ZodError issues)) /\
    ParseActions.updateInvoice id formData env w = (w, Throw (ZodError issues)).
Proof.
  intros Hinvalid.
  assert (Hfail : exists error,
    Zod.safeParse ParseActions.CreateInvoice (form_fields formData)
      = Zod.SafeParseError error /\ error <> []).
  { apply safeParse_fails_nonempty. simpl.
    destruct Hinvalid as [Hc | [Ha | Hs]].
    - left. unfold Zod.string_.
      destruct (FormData_get formData "customerId") as [[c|n]|];
        [by destruct (Hc c)|..]; by eexists.
    - right; left. unfold Zod.coerce_number. rewrite Ha. by eexists.
    - right; right. unfold Zod.enum.
      destruct (FormData_get formData "status") as [[s|n]|]; [|by eexists..].
      rewrite bool_decide_eq_false_2 by (by apply Hs). by eexists. }
  destruct Hfail as (error & Herror & Hne).
  exists error. split; [exact Hne|].
  rewrite parse_createInvoice_run, parse_updateInvoice_run.
  change ParseActions.UpdateInvoice with ParseActions.CreateInvoice.
  by rewrite Herror.
Qed.

Lemma parse_actions_throw_on_invalid_input_witness :
  exists issues,
    ParseActions.createInvoice (form "c1" "12" "overdue") accepting_env sample_world =
      (sample_world, Throw (ZodError issues)).
Proof.
  destruct (parse_actions_throw_on_invalid_input (form "c1" "12" "overdue") "a1"
              accepting_env sample_world) as (issues & _ & Hcreate & _).
  - right. right. intros s [= <-]. vm_compute.
    intros H. inversion H as [|? ? ? H']; subst.
    inversion H' as [|? ? ? H'']; subst. inversion H''.
  - by exists issues.
Defined.

(** X21. On data that the schema with the checks accepts, the two files
    agree on what is written: the actions that use [parse] leave the same
    world as the actions that return a state. They differ only when the
    database rejects the statement, where the first throw the rejection
    and the second return a state. *)
Theorem actions_agree_on_valid_data
    (prevState : Actions.State) (formData : FormData) (id : string)
    (env : Env) (w : World) (data : Zod.InvoiceFields) :
  Zod.safeParse Actions.CreateInvoice (form_fields formData)
    = Zod.SafeParseSuccess data ->
  (fst (ParseActions.createInvoice formData env w) =
     fst (Actions.createInvoice prevState formData env w) /\
   (forall e, snd (Actions.createInvoice prevState formData env w) = Throw e ->
              snd (ParseActions.createInvoice formData env w) = Throw e) /\
   (forall st, snd (Actions.createInvoice prevState formData env w) = Return st ->
               exists e, sql_rejects env (insert_of env data) (invoices w) = Some e /\
                         snd (ParseActions.createInvoice formData env w) = Throw e)) /\
  (fst (ParseActions.updateInvoice id formData env w) =
     fst (Actions.updateInvoice id prevState formData env w) /\
   (forall e, snd (Actions.updateInvoice id prevState formData env w) = Throw e ->
              snd (ParseActions.updateInvoice id formData env w) = Throw e) /\
   (forall st, snd (Actions.updateInvoice id prevState formData env w) = Return st ->
               exists e, sql_rejects env (update_of id data) (invoices w) = Some e /\
                         snd (ParseActions.updateInvoice id formData env w) = Throw e)).
Proof.
  intros Hvalid.
  pose proof (parse_schema_is_weaker formData data Hvalid) as Hweaker.
  rewrite parse_createInvoice_run, parse_updateInvoice_run,
    createInvoice_run, updateInvoice_run.
  change ParseActions.UpdateInvoice with ParseActions.CreateInvoice.
  change Actions.UpdateInvoice with Actions.CreateInvoice.
  rewrite Hvalid, Hweaker.
  split; destruct (sql_rejects _ _ _) as [e|]; simpl;
    repeat split;
    first [ done | by intros ? [= <-] | by intros ? [=] | by (intros st _; eexists) ].
Qed.

Lemma actions_agree_on_valid_data_witness :
  fst (ParseActions.createInvoice (form "c1" "45.50" "pending") accepting_env sample_world) =
  fst (Actions.createInvoice no_state (form "c1" "45.50" "pending") accepting_env sample_world).
Proof.
  apply (actions_agree_on_valid_data no_state (form "c1" "45.50" "pending") "a1"
           accepting_env sample_world sample_data).
  vm_compute. reflexivity.
Defined.

(** X22. The delete action that has no [try] leaves the same world as the
    one that has it; it returns nothing when the statement completes and
    throws the rejection of the database when it does not. *)
Theorem parse_deleteInvoice_propagates (id : string) (env : Env) (w : World) :
  fst (ParseActions.deleteInvoice id env w) = fst (Actions.deleteInvoice id env w) /\
  snd (ParseActions.deleteInvoice id env w) =
    match sql_rejects env (Sql.DELETE_FROM_invoices id) (invoices w) with
    | Some e => Throw e
    | None => Return tt
    end.
Proof.
  rewrite parse_deleteInvoice_run, deleteInvoice_run.
  by destruct (sql_rejects _ _ _).
Qed.

(** ** The date that is stored *)

(** X23. The date that the create action stores depends on the UTC day of
    the clock only: two instants of the same day give the same date, the
    time of day being dropped. *)
Theorem stored_date_depends_on_day (t1 t2 : Z) :
  Date.Day t1 = Date.Day t2 ->
  hd EmptyString (split "T" (Date.toISOString t1)) =
  hd EmptyString (split "T" (Date.toISOString t2)).
Proof.
  intros Hday. rewrite !split_toISOString.
  unfold Date.date_string, Date.DateFromTime, Date.MonthFromTime,
    Date.DayWithinYear, Date.InLeapYear, Date.YearFromTime.
  by rewrite Hday.
Qed.

Lemma stored_date_depends_on_day_witness :
  hd EmptyString (split "T" (Date.toISOString 1793577600000)) =
  hd EmptyString (split "T" (Date.toISOString 1793663999999)).
Proof.
  apply (stored_date_depends_on_day 1793577600000 1793663999999). reflexivity.
Defined.

(** ** Rounding *)

(** The lemmas of this part are about the rounding of the standard
    library's [spec_float] at the precision of the numbers of the
    language: how many bits a mantissa has, what a shift to the right does
    to it, and that rounding neither loses a positive mantissa nor goes
    below the least exponent. *)

Lemma digits2_pos_bounds p :
  2 ^ (Z.pos (digits2_pos p) - 1) <= Z.pos p < 2 ^ Z.pos (digits2_pos p).
Proof.
  induction p as [p IH|p IH|]; simpl digits2_pos.
  - rewrite Pos2Z.inj_succ. replace (Z.succ (Z.pos (digits2_pos p)) - 1) with (Z.succ (Z.pos (digits2_pos p) - 1)) by lia.
    rewrite !Z.pow_succ_r by lia. lia.
  - rewrite Pos2Z.inj_succ. replace (Z.succ (Z.pos (digits2_pos p)) - 1) with (Z.succ (Z.pos (digits2_pos p) - 1)) by lia.
    rewrite !Z.pow_succ_r by lia. lia.
  - simpl. lia.
Qed.

Lemma shr_1_m mrs : 0 <= shr_m mrs -> shr_m (shr_1 mrs) = shr_m mrs / 2.
Proof.
  destruct mrs as [m r s]. cbn [shr_m]. intros Hm.
  destruct m as [|[p|p|]|p]; cbn [shr_1 shr_m]; try lia; try reflexivity.
  - apply Z.div_unique with 1; lia.
  - apply Z.div_unique with 0; lia.
Qed.

Lemma iter_pos_shr_m n mrs :
  0 <= shr_m mrs -> shr_m (SpecFloat.iter_pos shr_1 n mrs) = shr_m mrs / 2 ^ Z.pos n.
Proof.
  revert mrs. induction n as [n IH|n IH|]; intros mrs Hm; simpl SpecFloat.iter_pos.
  - assert (H1 : 0 <= shr_m (shr_1 mrs)) by (rewrite shr_1_m by done; apply Z.div_pos; lia).
    assert (H2 : 0 <= shr_m (SpecFloat.iter_pos shr_1 n (shr_1 mrs))) by (rewrite IH by done; apply Z.div_pos; lia).
    rewrite IH, IH, shr_1_m by done.
    rewrite !Z.div_div by lia. f_equal.
    replace (Z.pos n~1) with (1 + Z.pos n + Z.pos n) by lia.
    rewrite !Z.pow_add_r by lia. ring.
  - assert (H2 : 0 <= shr_m (SpecFloat.iter_pos shr_1 n mrs)) by (rewrite IH by done; apply Z.div_pos; lia).
    rewrite IH, IH by done.
    rewrite !Z.div_div by lia. f_equal.
    replace (Z.pos n~0) with (Z.pos n + Z.pos n) by lia.
    rewrite !Z.pow_add_r by lia. ring.
  - rewrite shr_1_m by done. done.
Qed.

Lemma shr_fexp_exp m e l : emin Js.prec Js.emax <= snd (shr_fexp Js.prec Js.emax m e l).
Proof.
  unfold shr_fexp, shr.
  destruct (fexp Js.prec Js.emax (Zdigits2 m + e) - e) as [|p|p] eqn:Hn; simpl snd;
    unfold fexp, emin, Js.prec, Js.emax in *; lia.
Qed.

Lemma shr_fexp_pos m e l :
  0 < m -> emin Js.prec Js.emax - e < Zdigits2 m ->
  0 < shr_m (fst (shr_fexp Js.prec Js.emax m e l)).
Proof.
  intros Hm He. unfold shr_fexp, shr.
  assert (Hrec : shr_m (shr_record_of_loc m l) = m) by (by destruct l as [|[| |]]).
  destruct (fexp Js.prec Js.emax (Zdigits2 m + e) - e) as [|p|p] eqn:Hn; simpl fst;
    rewrite ?Hrec; try done.
  rewrite iter_pos_shr_m by lia. rewrite Hrec.
  destruct m as [|q|q]; try lia. simpl Zdigits2 in *.
  pose proof (digits2_pos_bounds q) as [Hlow _].
  assert (Hp : Z.pos p <= Z.pos (digits2_pos q) - 1)
    by (unfold fexp, emin, Js.prec, Js.emax in *; lia).
  apply Z.div_str_pos. split; [lia|].
  etrans; [|exact Hlow]. apply Z.pow_le_mono_r; lia.
Qed.

Lemma round_nearest_even_ge m l : m <= round_nearest_even m l.
Proof. destruct l as [|[| |]]; simpl; try case_match; lia. Qed.

Lemma binary_round_aux_pos mx ex lx :
  0 < mx -> emin Js.prec Js.emax - ex < Zdigits2 mx ->
  match binary_round_aux Js.prec Js.emax false mx ex lx with
  | S754_finite false _ e => emin Js.prec Js.emax <= e
  | S754_infinity false => True
  | _ => False
  end.
Proof.
  intros Hm He. unfold binary_round_aux.
  pose proof (shr_fexp_pos mx ex lx Hm He) as H1.
  pose proof (shr_fexp_exp mx ex lx) as E1.
  destruct (shr_fexp Js.prec Js.emax mx ex lx) as [mrs' e']. simpl in H1, E1.
  pose proof (round_nearest_even_ge (shr_m mrs') (loc_of_shr_record mrs')) as Hr.
  set (m2 := round_nearest_even _ _) in *.
  assert (Hd : 0 < Zdigits2 m2) by (destruct m2; simpl; lia).
  pose proof (shr_fexp_pos m2 e' loc_Exact ltac:(lia) ltac:(lia)) as H2.
  pose proof (shr_fexp_exp m2 e' loc_Exact) as E2.
  destruct (shr_fexp Js.prec Js.emax m2 e' loc_Exact) as [mrs'' e'']. simpl in H2, E2.
  destruct (shr_m mrs''); [exfalso; lia| |exfalso; lia].
  destruct (e'' <=? Js.emax - Js.prec); [exact E2 | exact I].
Qed.

Lemma binary_round_aux_exponent sx mx ex lx :
  exponent_ok (binary_round_aux Js.prec Js.emax sx mx ex lx).
Proof.
  unfold binary_round_aux.
  destruct (shr_fexp Js.prec Js.emax mx ex lx) as [mrs' e'].
  pose proof (shr_fexp_exp
                (round_nearest_even (shr_m mrs') (loc_of_shr_record mrs')) e'
                loc_Exact) as E2.
  destruct (shr_fexp Js.prec Js.emax _ e' loc_Exact) as [mrs'' e'']. simpl in E2.
  destruct (shr_m mrs''); simpl; [done| |done].
  by destruct (e'' <=? Js.emax - Js.prec).
Qed.

Lemma of_decimal_exponent sx m e : exponent_ok (Js.of_decimal sx m e).
Proof.
  unfold Js.of_decimal. destruct m as [|p|p]; simpl; [done| |done].
  case_match.
  - unfold binary_round. destruct (shl_align _ _ _).
    apply binary_round_aux_exponent.
  - destruct (SFdiv_core_binary _ _ _ _ _ _) as [[q e'] l].
    apply binary_round_aux_exponent.
Qed.

Lemma unsigned_decimal_exponent sx l : exponent_ok (Js.unsigned_decimal sx l).
Proof.
  unfold Js.unsigned_decimal. case_bool_decide; [done|].
  destruct (Js.read_digits 10 l 0 0) as [[i ni] r1].
  destruct (match r1 with [] => _ | _ => _ end) as [[m nf] r2].
  case_match; [done|].
  destruct (Js.read_exponent r2) as [[e [|]]|]; try done.
  apply of_decimal_exponent.
Qed.

Lemma non_decimal_exponent radix l : exponent_ok (Js.non_decimal radix l).
Proof.
  unfold Js.non_decimal.
  destruct (Js.read_digits radix l 0 0) as [[v n] [|]]; [|done].
  case_match; [done|]. apply of_decimal_exponent.
Qed.

(** Every number read from a form value has an exponent in range. *)
Lemma Number_exponent v : exponent_ok (Number v).
Proof.
  assert (Hs : forall s, exponent_ok (Js.StringToNumber s)).
  { intros s. unfold Js.StringToNumber.
    destruct (Js.trim _) as [|c l]; [done|].
    repeat case_match;
      first [ apply unsigned_decimal_exponent | apply non_decimal_exponent ]. }
  destruct v as [[s|n]|]; [exact (Hs s) | exact (Hs "[object File]") | done].
Qed.

(** A number greater than zero stays greater than zero when multiplied
    by 100: the product is not rounded to zero. *)
Lemma mul_100_positive a :
  exponent_ok a ->
  Js.gt a (Js.of_Z 0) = true ->
  Js.gt (Js.mul a (Js.of_Z 100)) (Js.of_Z 0) = true.
Proof.
  intros Hexp Hgt.
  change (Js.of_Z 100) with (S754_finite false 7036874417766400 (-46)).
  destruct a as [sg|[|]| |[|] m e]; try discriminate Hgt; [done|].
  unfold Js.mul, SFmul. cbn [xorb].
  pose proof (binary_round_aux_pos (Z.pos (m * 7036874417766400)) (e + -46)
                loc_Exact) as Hpos.
  destruct (binary_round_aux _ _ _ _ _ _) as [sg|[|]| |[|] m' e'];
    try done; exfalso; apply Hpos; try lia.
  all: simpl in Hexp; simpl Zdigits2;
    pose proof (digits2_pos_bounds (m * 7036874417766400)) as [_ Hup];
    assert (Hbits : 2 ^ 52 < 2 ^ Z.pos (digits2_pos (m * 7036874417766400)))
      by (eapply Z.le_lt_trans; [|exact Hup]; rewrite Pos2Z.inj_mul;
          change (2 ^ 52) with 4503599627370496; nia);
    apply Z.pow_lt_mono_r_iff in Hbits; [|lia|lia];
    unfold emin, Js.prec, Js.emax in *; lia.
Qed.

(** *** Products that are exact *)

Lemma shr_1_double M :
  0 <= M ->
  shr_1 {| shr_m := 2 * M; shr_r := false; shr_s := false |} =
  {| shr_m := M; shr_r := false; shr_s := false |}.
Proof. destruct M as [|q|q]; [done|done|lia]. Qed.

Lemma iter_pos_shr_exact p M :
  0 <= M ->
  SpecFloat.iter_pos shr_1 p {| shr_m := 2 ^ Z.pos p * M; shr_r := false; shr_s := false |} =
  {| shr_m := M; shr_r := false; shr_s := false |}.
Proof.
  revert M. induction p as [p IH|p IH|]; intros M HM; cbn [SpecFloat.iter_pos].
  - replace (2 ^ Z.pos p~1 * M) with (2 * (2 ^ Z.pos p * (2 ^ Z.pos p * M))).
    + rewrite shr_1_double by nia. rewrite IH by nia. by rewrite IH.
    + replace (Z.pos p~1) with (1 + Z.pos p + Z.pos p) by lia.
      rewrite !Z.pow_add_r by lia. ring.
  - replace (2 ^ Z.pos p~0 * M) with (2 ^ Z.pos p * (2 ^ Z.pos p * M)).
    + rewrite IH by nia. by rewrite IH.
    + replace (Z.pos p~0) with (Z.pos p + Z.pos p) by lia.
      rewrite !Z.pow_add_r by lia. ring.
  - change (2 ^ 1) with 2. by apply shr_1_double.
Qed.

Lemma digits2_pos_unique p d :
  2 ^ (d - 1) <= Z.pos p < 2 ^ d -> Z.pos (digits2_pos p) = d.
Proof.
  intros [Hlow Hup]. pose proof (digits2_pos_bounds p) as [Hlow' Hup'].
  assert (Hd : 0 <= d).
  { destruct (Z.le_gt_cases 0 d) as [|Hneg]; [done|].
    rewrite (Z.pow_neg_r 2 d) in Hup by lia. lia. }
  assert (d - 1 < Z.pos (digits2_pos p))
    by (apply (Z.pow_lt_mono_r_iff 2); lia).
  assert (Z.pos (digits2_pos p) - 1 < d)
    by (apply (Z.pow_lt_mono_r_iff 2); lia).
  lia.
Qed.

Lemma binary_round_aux_exact s (P M : positive) (j E : Z) :
  Z.pos P = 2 ^ j * Z.pos M -> 0 <= j ->
  Z.pos (digits2_pos M) = 53 ->
  -1074 <= E + j <= 971 ->
  binary_round_aux Js.prec Js.emax s (Z.pos P) E loc_Exact = S754_finite s M (E + j).
Proof.
  intros HP Hj HM HE.
  assert (HdP : Z.pos (digits2_pos P) = 53 + j).
  { apply digits2_pos_unique. pose proof (digits2_pos_bounds M) as [Hl Hu].
    rewrite HM in Hl, Hu. rewrite HP.
    replace (53 + j - 1) with (j + 52) by lia. replace (53 + j) with (j + 53) by lia.
    rewrite !Z.pow_add_r by lia. change (53 - 1) with 52 in Hl.
    assert (0 < 2 ^ j) by (apply Z.pow_pos_nonneg; lia). nia. }
  unfold binary_round_aux, shr_fexp. simpl Zdigits2. rewrite HdP.
  assert (Hn : fexp Js.prec Js.emax (53 + j + E) - E = j)
    by (unfold fexp, emin, Js.prec, Js.emax; lia).
  rewrite Hn. cbn [shr_record_of_loc].
  assert (Hshift : shr {| shr_m := Z.pos P; shr_r := false; shr_s := false |} E j =
                   ({| shr_m := Z.pos M; shr_r := false; shr_s := false |}, E + j)).
  { unfold shr. destruct j as [|jp|jp]; [|..].
    - rewrite Z.add_0_r. f_equal. f_equal. rewrite HP. simpl. lia.
    - rewrite HP. by rewrite iter_pos_shr_exact.
    - lia. }
  rewrite Hshift. cbn [shr_m loc_of_shr_record round_nearest_even Zdigits2].
  rewrite HM.
  assert (Hn2 : fexp Js.prec Js.emax (53 + (E + j)) - (E + j) = 0)
    by (unfold fexp, emin, Js.prec, Js.emax; lia).
  rewrite Hn2. cbn [shr shr_m].
  assert (Hle : (E + j <=? Js.emax - Js.prec) = true) by (apply Z.leb_le; unfold Js.emax, Js.prec; lia).
  by rewrite Hle.
Qed.

Lemma pos_iter_xO q j : Z.pos (Pos.iter xO q j) = Z.pos q * 2 ^ Z.pos j.
Proof.
  induction j as [|j IH] using Pos.peano_ind.
  - simpl. lia.
  - rewrite Pos.iter_succ, Pos2Z.inj_xO, IH, Pos2Z.inj_succ, Z.pow_succ_r by lia. ring.
Qed.

Lemma of_Z_canonical k :
  0 < k < 2 ^ 53 ->
  exists M d,
    Js.of_Z k = S754_finite false M (d - 53) /\
    Z.pos M = k * 2 ^ (53 - d) /\
    2 ^ (d - 1) <= k < 2 ^ d /\ d <= 53.
Proof.
  intros [Hk Hup]. destruct k as [|q|q]; try lia.
  pose proof (digits2_pos_bounds q) as [Hl Hu].
  set (d := Z.pos (digits2_pos q)) in *.
  assert (Hd : d <= 53).
  { assert (d - 1 < 53) by (apply (Z.pow_lt_mono_r_iff 2); lia). lia. }
  unfold Js.of_Z, binary_normalize, binary_round.
  assert (Hf : fexp Js.prec Js.emax (Z.pos (digits2_pos q) + 0) = d - 53)
    by (unfold fexp, emin, Js.prec, Js.emax; fold d; lia).
  rewrite Hf. unfold shl_align.
  destruct (d - 53 - 0) as [|jj|jj] eqn:Hj; try lia.
  - exists q, d. assert (d = 53) by lia.
    rewrite (binary_round_aux_exact false q q 0 0); try (simpl; lia).
    replace (53 - d) with 0 by lia. replace (d - 53) with 0 by lia.
    repeat split; simpl; lia.
  - exists (Pos.iter xO q jj), d.
    assert (HM : Z.pos (Pos.iter xO q jj) = Z.pos q * 2 ^ (53 - d))
      by (rewrite pos_iter_xO; f_equal; f_equal; lia).
    assert (Hp : 2 ^ 53 = 2 ^ d * 2 ^ (53 - d))
      by (rewrite <- Z.pow_add_r by lia; f_equal; lia).
    assert (Hp' : 2 ^ 52 = 2 ^ (d - 1) * 2 ^ (53 - d))
      by (rewrite <- Z.pow_add_r by lia; f_equal; lia).
    assert (Hpos : 0 < 2 ^ (53 - d)) by (apply Z.pow_pos_nonneg; lia).
    rewrite (binary_round_aux_exact false _ (Pos.iter xO q jj) 0 (d - 53)).
    + rewrite Z.add_0_r. repeat split; try done; lia.
    + simpl. lia.
    + lia.
    + apply digits2_pos_unique. rewrite HM. change (53 - 1) with 52. nia.
    + lia.
Qed.

Lemma mul_100_exact n :
  0 < n -> 100 * n < 2 ^ 53 -> Js.mul (Js.of_Z n) (Js.of_Z 100) = Js.of_Z (100 * n).
Proof.
  intros Hn Hup.
  destruct (of_Z_canonical n) as (Mn & dn & -> & HMn & [Hln Hun] & Hdn); [lia|].
  destruct (of_Z_canonical (100 * n)) as (M & d & -> & HM & [Hl Hu] & Hd); [lia|].
  change (Js.of_Z 100) with (S754_finite false 7036874417766400 (-46)).
  unfold Js.mul, SFmul. cbn [xorb].
  assert (Hdd : dn <= d).
  { assert (dn - 1 < d) by (apply (Z.pow_lt_mono_r_iff 2); [lia| |lia];
      destruct (Z.le_gt_cases 0 d) as [|Hneg]; [done|];
      rewrite (Z.pow_neg_r 2 d) in Hu by lia; lia). lia. }
  assert (H0 : 0 < dn).
  { destruct (Z.le_gt_cases dn 0) as [Hle|]; [|done].
    assert (2 ^ dn <= 2 ^ 0) by (destruct (Z.le_gt_cases 0 dn);
      [apply Z.pow_le_mono_r; lia | rewrite Z.pow_neg_r by lia; simpl; lia]).
    simpl in *. lia. }
  rewrite (binary_round_aux_exact false _ M (46 + d - dn) (dn - 53 + -46)).
  - f_equal. lia.
  - rewrite Pos2Z.inj_mul, HMn, HM.
    change (Z.pos 7036874417766400) with (100 * 2 ^ 46).
    replace (2 ^ (46 + d - dn) * (100 * n * 2 ^ (53 - d)))
      with (100 * n * (2 ^ (46 + d - dn) * 2 ^ (53 - d))) by ring.
    rewrite <- Z.pow_add_r by lia.
    replace (n * 2 ^ (53 - dn) * (100 * 2 ^ 46))
      with (100 * n * (2 ^ (53 - dn) * 2 ^ 46)) by ring.
    rewrite <- Z.pow_add_r by lia. do 2 f_equal. lia.
  - lia.
  - apply digits2_pos_unique. rewrite HM. change (53 - 1) with 52.
    assert (Hp : 2 ^ 53 = 2 ^ d * 2 ^ (53 - d))
      by (rewrite <- Z.pow_add_r by lia; f_equal; lia).
    assert (Hp' : 2 ^ 52 = 2 ^ (d - 1) * 2 ^ (53 - d))
      by (rewrite <- Z.pow_add_r by lia; f_equal; lia).
    assert (Hpos : 0 < 2 ^ (53 - d)) by (apply Z.pow_pos_nonneg; lia).
    nia.
  - lia.
Qed.

Lemma of_Z_positive n : Js.gt (Js.of_Z n) (Js.of_Z 0) = true -> 0 < n.
Proof.
  destruct n as [|q|q]; [done|lia|].
  unfold Js.of_Z, binary_normalize, binary_round.
  destruct (shl_align _ _ _) as [mz ez].
  pose proof (binary_round_aux_sign true (Z.pos mz) ez loc_Exact) as Hs.
  by destruct (binary_round_aux _ _ _ _ _ _) as [sg|sg| |sg m e]; simpl in Hs; subst.
Qed.

(** ** The invariant of the table *)

(** X24. The three actions keep the invariant of the table: when every
    row has an amount greater than zero and one of the two statuses, so has
    every row after a create, an update or a delete, whatever the form
    holds and whatever the database answers. In particular the amount
    times 100 that a create or an update writes is never zero, negative or
    NaN. *)
Theorem valid_invoices_are_kept
    (prevState : Actions.State) (formData : FormData) (id : string)
    (env : Env) (w : World) :
  Forall valid_invoice (invoices w) ->
  Forall valid_invoice
    (invoices (fst (Actions.createInvoice prevState formData env w))) /\
  Forall valid_invoice
    (invoices (fst (Actions.updateInvoice id prevState formData env w))) /\
  Forall valid_invoice (invoices (fst (Actions.deleteInvoice id env w))).
Proof.
  intros Hvalid.
  rewrite createInvoice_run, updateInvoice_run, deleteInvoice_run.
  change Actions.UpdateInvoice with Actions.CreateInvoice.
  pose proof (safeParse_is_total_fields (form_fields formData)) as Htyped.
  assert (Hwritten : forall data,
    Zod.safeParse Actions.CreateInvoice (form_fields formData)
      = Zod.SafeParseSuccess data ->
    Js.gt (Js.mul (Zod.amount data) (Js.of_Z 100)) (Js.of_Z 0) = true /\
    Zod.status data ∈ ["pending"; "paid"]).
  { intros data Hdata. rewrite Hdata in Htyped.
    destruct Htyped as (_ & Ha & Hgt & _ & Hin). split; [|exact Hin].
    apply mul_100_positive; [|exact Hgt]. rewrite Ha. apply Number_exponent. }
  split; [|split].
  - destruct (Zod.safeParse _ _) as [data|error]; [|done].
    destruct (sql_rejects _ _ _); simpl; [done|].
    apply Forall_app. split; [done|].
    apply Forall_singleton. by apply Hwritten.
  - destruct (Zod.safeParse _ _) as [data|error]; [|done].
    destruct (sql_rejects _ _ _); simpl; [done|].
    apply Forall_fmap. eapply Forall_impl; [exact Hvalid|].
    intros r Hr. simpl. case_bool_decide; [|done]. by apply Hwritten.
  - destruct (sql_rejects _ _ _); simpl; [done|].
    apply Forall_forall. intros r [_ Hr]%list_elem_of_filter.
    by eapply Forall_forall in Hvalid.
Qed.

Lemma valid_invoices_are_kept_witness :
  Forall valid_invoice
    (invoices (fst (Actions.createInvoice no_state (form "c1" "0.07" "paid")
                      accepting_env sample_world))).
Proof.
  apply (valid_invoices_are_kept no_state (form "c1" "0.07" "paid") "a1"
           accepting_env sample_world).
  repeat constructor; apply list_elem_of_In; simpl; tauto.
Defined.

(** ** Whole amounts *)

(** X25. An amount that is a whole number is stored exactly: when the
    validated amount is the integer [n], with [100 * n] below 2^53, the
    create action writes a row whose amount is the integer [100 * n], and
    the update action gives that amount to the rows of its identifier. *)
Theorem whole_amounts_are_stored_exactly
    (prevState : Actions.State) (formData : FormData) (id : string)
    (env : Env) (w : World) (data : Zod.InvoiceFields) (n : Z) :
  Zod.safeParse Actions.CreateInvoice (form_fields formData)
    = Zod.SafeParseSuccess data ->
  Zod.amount data = Js.of_Z n ->
  100 * n < 2 ^ 53 ->
  (sql_rejects env (insert_of env data) (invoices w) = None ->
   exists row,
     invoices (fst (Actions.createInvoice prevState formData env w))
       = invoices w ++ [row] /\
     Sql.amount row = Js.of_Z (100 * n)) /\
  (sql_rejects env (update_of id data) (invoices w) = None ->
   forall r,
     r ∈ invoices (fst (Actions.updateInvoice id prevState formData env w)) ->
     Sql.id r = id -> Sql.amount r = Js.of_Z (100 * n)).
Proof.
  intros Hvalid Hn Hbound.
  pose proof (safeParse_is_total_fields (form_fields formData)) as Htyped.
  rewrite Hvalid in Htyped. destruct Htyped as (_ & _ & Hgt & _).
  rewrite Hn in Hgt. apply of_Z_positive in Hgt.
  pose proof (mul_100_exact n Hgt Hbound) as Hexact.
  split; intros Haccepts.
  - rewrite createInvoice_run, Hvalid, Haccepts. simpl.
    eexists. split; [reflexivity|]. simpl. by rewrite Hn.
  - rewrite updateInvoice_run.
    change Actions.UpdateInvoice with Actions.CreateInvoice.
    rewrite Hvalid, Haccepts. simpl.
    intros r (r0 & -> & Hr0)%list_elem_of_fmap_1.
    case_bool_decide as Hid; simpl; [by rewrite Hn|].
    intros Heq. by destruct Hid.
Qed.

Lemma whole_amounts_are_stored_exactly_witness :
  exists row,
    invoices (fst (Actions.createInvoice no_state (form "c1" "12" "paid")
                     accepting_env sample_world)) = sample_invoices ++ [row] /\
    Sql.amount row = Js.of_Z 1200.
Proof.
  destruct (whole_amounts_are_stored_exactly no_state (form "c1" "12" "paid") "a1"
              accepting_env sample_world
              {| Zod.customerId := "c1"; Zod.amount := Js.StringToNumber "12";
                 Zod.status := "paid" |} 12) as [Hcreate _].
  - vm_compute. reflexivity.
  - vm_compute. reflexivity.
  - vm_compute. reflexivity.
  - apply Hcreate. reflexivity.
Defined.

(** ** More on what is accepted and reported *)

(** The schema with the checks accepts a string customer, an amount
    greater than zero and one of the two statuses. *)
Lemma schema_accepts (formData : FormData) (c s : string) :
  FormData_get formData "customerId" = Some (FormString c) ->
  Js.gt (Number (FormData_get formData "amount")) (Js.of_Z 0) = true ->
  FormData_get formData "status" = Some (FormString s) ->
  s ∈ ["pending"; "paid"] ->
  Zod.safeParse Actions.CreateInvoice (form_fields formData) =
    Zod.SafeParseSuccess
      {| Zod.customerId := c;
         Zod.amount := Number (FormData_get formData "amount");
         Zod.status := s |}.
Proof.
  intros Hc Hgt Hs Hin. unfold Zod.safeParse.
  pose proof (proj2 (amount_ok _ _) (conj eq_refl Hgt)) as Ha.
  simpl in *. rewrite Hc, Ha, Hs. simpl. unfold Zod.enum.
  by rewrite bool_decide_eq_true_2.
Qed.

(** X26. An infinite amount passes the [.gt(0)] check: when the amount
    coerces to Infinity and the other fields are valid, a create whose
    INSERT completes writes a row whose amount is Infinity, and an update
    whose UPDATE completes writes Infinity to the rows of its identifier;
    both leave by the redirect. *)
Theorem infinite_amount_is_accepted
    (prevState : Actions.State) (formData : FormData) (id : string)
    (env : Env) (w : World) (c s : string) :
  FormData_get formData "customerId" = Some (FormString c) ->
  Number (FormData_get formData "amount") = Js.Infinity ->
  FormData_get formData "status" = Some (FormString s) ->
  s ∈ ["pending"; "paid"] ->
  let date := Date.date_string (now env) in
  (sql_rejects env (Sql.INSERT_INTO_invoices c Js.Infinity s date) (invoices w) = None ->
   Actions.createInvoice prevState formData env w =
     ({| invoices := invoices w ++
           [ {| Sql.id := generated_id env (invoices w); Sql.customer_id := c;
                Sql.amount := Js.Infinity; Sql.status := s; Sql.date := date |} ];
         effects := effects w ++
           [SqlStatement (Sql.INSERT_INTO_invoices c Js.Infinity s date);
            RevalidatePath "/dashboard/invoices"] |},
      Throw (NEXT_REDIRECT "/dashboard/invoices"))) /\
  (sql_rejects env (Sql.UPDATE_invoices c Js.Infinity s id) (invoices w) = None ->
   Actions.updateInvoice id prevState formData env w =
     ({| invoices :=
           Sql.execute (generated_id env (invoices w))
             (Sql.UPDATE_invoices c Js.Infinity s id) (invoices w);
         effects := effects w ++
           [SqlStatement (Sql.UPDATE_invoices c Js.Infinity s id);
            RevalidatePath "/dashboard/invoices"] |},
      Throw (NEXT_REDIRECT "/dashboard/invoices"))).
Proof.
  intros Hc Ha Hs Hin date. subst date.
  assert (Hgt : Js.gt (Number (FormData_get formData "amount")) (Js.of_Z 0) = true)
    by (by rewrite Ha).
  pose proof (schema_accepts formData c s Hc Hgt Hs Hin) as Hvalid.
  rewrite Ha in Hvalid.
  split; intros Haccepts.
  - rewrite createInvoice_run, Hvalid. unfold insert_of.
    cbn [Zod.customerId Zod.amount Zod.status].
    change (Js.mul Js.Infinity (Js.of_Z 100)) with Js.Infinity.
    by rewrite Haccepts.
  - rewrite updateInvoice_run.
    change Actions.UpdateInvoice with Actions.CreateInvoice.
    rewrite Hvalid. unfold update_of.
    cbn [Zod.customerId Zod.amount Zod.status].
    change (Js.mul Js.Infinity (Js.of_Z 100)) with Js.Infinity.
    by rewrite Haccepts.
Qed.

Lemma infinite_amount_is_accepted_witness :
  invoices (fst (Actions.createInvoice no_state (form "c1" "1e999" "paid")
                   accepting_env sample_world)) =
    sample_invoices ++
      [ {| Sql.id := "7f3a"; Sql.customer_id := "c1"; Sql.amount := Js.Infinity;
           Sql.status := "paid"; Sql.date := "2026-11-02" |} ].
Proof.
  assert (Hin : "paid" ∈ ["pending"; "paid"])
    by (apply list_elem_of_In; right; left; reflexivity).
  destruct (infinite_amount_is_accepted no_state (form "c1" "1e999" "paid") "a1"
              accepting_env sample_world "c1" "paid" eq_refl eq_refl eq_refl Hin)
    as [Hcreate _].
  rewrite Hcreate by reflexivity. vm_compute. reflexivity.
Defined.

Lemma field_issues_at_most_one (raw : Zod.RawFields) :
  (length (Zod.issues_of (Zod.field_customerId Actions.CreateInvoice
                            (Zod.raw_customerId raw))) <= 1)%nat /\
  (length (Zod.issues_of (Zod.field_amount Actions.CreateInvoice
                            (Zod.raw_amount raw))) <= 1)%nat /\
  (length (Zod.issues_of (Zod.field_status Actions.CreateInvoice
                            (Zod.raw_status raw))) <= 1)%nat.
Proof.
  simpl. unfold Zod.string_, Zod.coerce_number, Zod.enum. simpl.
  split; [|split].
  - destruct (Zod.raw_customerId raw) as [[c|n]|]; simpl; lia.
  - destruct (Js.isNaN _); [simpl; lia|].
    destruct (Js.le _ _); simpl; lia.
  - destruct (Zod.raw_status raw) as [[s|n]|]; simpl; try lia.
    case_bool_decide; simpl; lia.
Qed.

(** X27. Each field that the create or the update action reports carries
    exactly one message: no entry of a returned [errors] is empty or has
    two messages. *)
Theorem reported_fields_have_one_message
    (prevState : Actions.State) (formData : FormData) (id : string)
    (env : Env) (w w' : World) (st : Actions.State)
    (errs : gmap string (list string)) (key : string) (msgs : list string) :
  Actions.createInvoice prevState formData env w = (w', Return st) \/
  Actions.updateInvoice id prevState formData env w = (w', Return st) ->
  Actions.errors st = Some errs ->
  errs !! key = Some msgs ->
  exists m, msgs = [m].
Proof.
  intros Hrun Herrs Hkey.
  assert (Hfail : exists error,
    Zod.safeParse Actions.CreateInvoice (form_fields formData) = Zod.SafeParseError error /\
    errs = Zod.fieldErrors error).
  { destruct Hrun as [Hrun | Hrun];
      [rewrite createInvoice_run in Hrun | rewrite updateInvoice_run in Hrun];
      change Actions.UpdateInvoice with Actions.CreateInvoice in Hrun;
      destruct (Zod.safeParse _ _) as [data|error].
    - destruct (sql_rejects _ _ _); by simplify_eq/=.
    - simplify_eq/=. by eexists.
    - destruct (sql_rejects _ _ _); by simplify_eq/=.
    - simplify_eq/=. by eexists. }
  destruct Hfail as (error & Herror & ->).
  rewrite (safeParse_error _ _ _ Herror) in Hkey.
  pose proof (field_issues_at_most_one (form_fields formData)) as (Hc & Ha & Hs).
  destruct (fieldErrors_keys _ _ _ _ _ Hkey) as [Hin _].
  apply list_elem_of_In in Hin.
  destruct Hin as [<- | [<- | [<- | []]]].
  - rewrite fieldErrors_customerId in Hkey.
    destruct (Zod.issues_of _) as [|i [|]]; simpl in *; simplify_eq; [by eexists|lia].
  - rewrite fieldErrors_amount in Hkey.
    destruct (Zod.issues_of (Zod.field_amount _ _)) as [|i [|]];
      simpl in *; simplify_eq; [by eexists|lia].
  - rewrite fieldErrors_status in Hkey.
    destruct (Zod.issues_of (Zod.field_status _ _)) as [|i [|]];
      simpl in *; simplify_eq; [by eexists|lia].
Qed.

Lemma reported_fields_have_one_message_witness :
  exists m,
    ["Invalid enum value. Expected 'pending' | 'paid', received 'overdue'"] = [m].
Proof.
  assert (Hrun : Actions.createInvoice no_state (form "" "12" "overdue")
                   accepting_env sample_world =
                 (sample_world,
                  Return {| Actions.errors :=
                              Some {[ "status" :=
                                ["Invalid enum value. Expected 'pending' | 'paid', received 'overdue'"] ]};
                            Actions.message :=
                              Some "Missing Fields. Failed to Create Invoice." |}))
    by (vm_compute; reflexivity).
  apply (reported_fields_have_one_message no_state (form "" "12" "overdue") "a1"
           accepting_env sample_world sample_world _ _ "status" _
           (or_introl Hrun) eq_refl).
  vm_compute. reflexivity.
Defined.

Lemma delete_after_update c a s i rows new_id :
  filter (fun r => Sql.id r <> i)
    (Sql.execute new_id (Sql.UPDATE_invoices c a s i) rows) =
  filter (fun r => Sql.id r <> i) rows.
Proof.
  simpl. induction rows as [|r rows IH]; [done|].
  rewrite fmap_cons, !filter_cons, IH.
  case_bool_decide as Hr; simpl.
  - rewrite !decide_False; [done| |]; intros Hne; by apply Hne.
  - by rewrite !decide_True.
Qed.

(** X28. An update does not matter to a later delete of the same
    identifier: an accepted update followed by an accepted delete of that
    identifier leaves the table that the delete alone leaves. *)
Theorem update_then_delete
    (id : string) (prevState : Actions.State) (formData : FormData)
    (env : Env) (w : World) (data : Zod.InvoiceFields) :
  Zod.safeParse Actions.UpdateInvoice (form_fields formData)
    = Zod.SafeParseSuccess data ->
  sql_rejects env (update_of id data) (invoices w) = None ->
  (forall rows, sql_rejects env (Sql.DELETE_FROM_invoices id) rows = None) ->
  let w1 := fst (Actions.updateInvoice id prevState formData env w) in
  invoices (fst (Actions.deleteInvoice id env w1)) =
  invoices (fst (Actions.deleteInvoice id env w)).
Proof.
  intros Hvalid Hupdate Hdelete w1. subst w1.
  rewrite !deleteInvoice_run, !Hdelete, updateInvoice_run, Hvalid, Hupdate.
  cbn [fst invoices]. unfold update_of. apply delete_after_update.
Qed.

Lemma update_then_delete_witness :
  invoices (fst (Actions.deleteInvoice "a1" accepting_env
                   (fst (Actions.updateInvoice "a1" no_state
                           (form "c1" "45.50" "pending") accepting_env sample_world)))) =
  invoices (fst (Actions.deleteInvoice "a1" accepting_env sample_world)).
Proof.
  apply (update_then_delete "a1" no_state (form "c1" "45.50" "pending")
           accepting_env sample_world sample_data).
  - vm_compute. reflexivity.
  - reflexivity.
  - reflexivity.
Defined.
